(** * DoorMonitor: the session-gated polling client of guardian-pi-door

    A shallow embedding of [src/components/DoorMonitor.tsx].  The React
    component keeps seven [useState] cells, starts two [setInterval]
    schedules from a [useEffect] keyed on [isLoggedIn], and talks to the
    Flask server through [fetch].  Every [async] handler is cut at its
    [await]s: the part before the first [await] runs when the handler is
    invoked, the part after it runs when the awaited promise settles.
    Promises in flight are kept in a finite map from request ids to the
    continuation that waits for them.  A render of the dashboard that
    throws takes the tree off the page, which runs the effect's cleanup. *)

From stdpp Require Import base option list gmap strings pretty.
From Stdlib Require Import ZArith.

Open Scope string_scope.

(** ** JavaScript values *)

(** The result of [parseInt], and the numbers of a JSON body. *)
Inductive num :=
| NaN
| Int (z : Z).

(** What [response.json()] can produce, plus [undefined] (a missing
    property).  An object is the list of its fields, keys distinct. *)
#[local] Unset Elimination Schemes.
Inductive jsval :=
| JUndefined
| JNull
| JBool (b : bool)
| JNum (n : num)
| JStr (s : string)
| JArr (items : list jsval)
| JObj (fields : list (string * jsval)).
#[local] Set Elimination Schemes.

Fixpoint assoc (k : string) (fields : list (string * jsval)) : jsval :=
  match fields with
  | [] => JUndefined
  | (k', v) :: rest => if String.eqb k k' then v else assoc k rest
  end.

(** [v.k]: [None] is the TypeError thrown on [null] and [undefined]. *)
Definition get_prop (v : jsval) (k : string) : option jsval :=
  match v with
  | JUndefined | JNull => None
  | JObj fields => Some (assoc k fields)
  | _ => Some JUndefined
  end.

(** JavaScript truthiness, as tested by [if (data.success)]. *)
Definition truthy (v : jsval) : bool :=
  match v with
  | JUndefined | JNull => false
  | JBool b => b
  | JNum NaN => false
  | JNum (Int z) => negb (z =? 0)%Z
  | JStr s => negb (String.eqb s "")
  | JArr _ | JObj _ => true
  end.

Definition num_to_string (n : num) : string :=
  match n with
  | NaN => "NaN"
  | Int z => pretty z
  end.

(** ** Component state: the [useState] cells *)

Record User := mkUser { username : string; password : string }.

Record State := mkState {
  isLoggedIn : bool;
  user : User;
  status : jsval;          (* SystemStatus | null *)
  events : jsval;          (* Event[] *)
  timerDuration : num;
  loading : bool;
  error : string
}.

Definition initialState : State :=
  {| isLoggedIn := false;
     user := {| username := ""; password := "" |};
     status := JNull;
     events := JArr [];
     timerDuration := Int 30;
     loading := false;
     error := "" |}.

(** ** The outside world: requests, promises, timers, notifications *)

Definition API_BASE : string := "http://localhost:5000".

Inductive method := GET | POST.

Inductive req_body :=
| NoBody
| FormBody (username password : string)   (* FormData of the login form *)
| DurationBody (duration : num).          (* JSON.stringify({ duration }) *)

Record request := mkReq {
  req_method : method;
  req_url : string;
  req_json_header : bool;                 (* 'Content-Type': 'application/json' *)
  req_body_of : req_body
}.

Record Toast := mkToast {
  title : string;
  description : string;
  destructive : bool
}.

Inductive feed := StatusFeed | EventsFeed.

(** What an awaited promise settles to: [fetch] resolves with a response
    carrying an HTTP status or rejects on a network-level failure;
    [response.json()] resolves with the parsed body or rejects. *)
Inductive settled :=
| Response (code : Z)
| Body (data : jsval)
| Rejected.

Definition response_ok (code : Z) : bool := ((200 <=? code) && (code <=? 299))%Z.

(** The code that waits on a promise in flight. *)
Inductive kont :=
| KProbe                 (* checkLoginStatus, after fetch *)
| KLogin                 (* handleLogin, after fetch *)
| KLogout                (* handleLogout, after fetch *)
| KStatus                (* fetchStatus, after fetch *)
| KStatusJson            (* fetchStatus, after response.json() *)
| KEvents                (* fetchEvents, after fetch *)
| KEventsJson            (* fetchEvents, after response.json() *)
| KReset                 (* resetSystem, after fetch *)
| KUpdate (d : num).     (* updateTimer, after fetch; d is the captured timerDuration *)

Inductive output :=
| OFetch (id : nat) (r : request)
| OToast (t : Toast)
| OConsoleLog (msg : string)
| OConsoleError (msg : string)
| OSetInterval (id : nat) (f : feed) (ms : Z)
| OClearInterval (id : nat)
| OWindowOpen (url : string).

Record World := mkWorld {
  st : State;
  pending : gmap nat kont;           (* promises in flight *)
  next_req : nat;
  timers : gmap nat feed;            (* the browser's interval table *)
  next_timer : nat;
  cleanup : option (nat * nat);      (* cleanup closure of the polling effect *)
  last_dep : bool;                   (* [isLoggedIn] as the polling effect last saw it *)
  mounted : bool                     (* the component tree is still on the page *)
}.

(** ** A state-and-output monad for the handlers *)

Definition M (A : Type) : Type := World -> A * World * list output.

#[global] Instance M_ret : MRet M := fun A a w => (a, w, []).
#[global] Instance M_bind : MBind M := fun A B f m w =>
  let '(a, w1, o1) := m w in
  let '(b, w2, o2) := f a w1 in
  (b, w2, (o1 ++ o2)%list).

Definition exec (m : M unit) (w : World) : World * list output :=
  let '(_, w', o) := m w in (w', o).

Definition getState : M State := fun w => (st w, w, []).
Definition getWorld : M World := fun w => (w, w, []).
Definition emit (o : output) : M unit := fun w => (tt, w, [o]).

Definition modState (f : State -> State) : M unit := fun w =>
  (tt, {| st := f (st w); pending := pending w; next_req := next_req w;
          timers := timers w; next_timer := next_timer w;
          cleanup := cleanup w; last_dep := last_dep w;
          mounted := mounted w |}, []).

Definition setIsLoggedIn (b : bool) : M unit :=
  modState (fun s => {| isLoggedIn := b; user := user s; status := status s;
                        events := events s; timerDuration := timerDuration s;
                        loading := loading s; error := error s |}).
Definition setUser (u : User) : M unit :=
  modState (fun s => {| isLoggedIn := isLoggedIn s; user := u; status := status s;
                        events := events s; timerDuration := timerDuration s;
                        loading := loading s; error := error s |}).
Definition setStatus (v : jsval) : M unit :=
  modState (fun s => {| isLoggedIn := isLoggedIn s; user := user s; status := v;
                        events := events s; timerDuration := timerDuration s;
                        loading := loading s; error := error s |}).
Definition setEvents (v : jsval) : M unit :=
  modState (fun s => {| isLoggedIn := isLoggedIn s; user := user s; status := status s;
                        events := v; timerDuration := timerDuration s;
                        loading := loading s; error := error s |}).
Definition setTimerDuration (n : num) : M unit :=
  modState (fun s => {| isLoggedIn := isLoggedIn s; user := user s; status := status s;
                        events := events s; timerDuration := n;
                        loading := loading s; error := error s |}).
Definition setLoading (b : bool) : M unit :=
  modState (fun s => {| isLoggedIn := isLoggedIn s; user := user s; status := status s;
                        events := events s; timerDuration := timerDuration s;
                        loading := b; error := error s |}).
Definition setError (e : string) : M unit :=
  modState (fun s => {| isLoggedIn := isLoggedIn s; user := user s; status := status s;
                        events := events s; timerDuration := timerDuration s;
                        loading := loading s; error := e |}).

(** [await fetch(url, init)]: the request goes out now, [k] runs when the
    promise settles. *)
Definition fetch (r : request) (k : kont) : M unit := fun w =>
  (tt, {| st := st w; pending := <[next_req w := k]> (pending w);
          next_req := S (next_req w);
          timers := timers w; next_timer := next_timer w;
          cleanup := cleanup w; last_dep := last_dep w;
          mounted := mounted w |},
   [OFetch (next_req w) r]).

(** A second [await] inside the same call: promise [i] is now awaited by [k]. *)
Definition await (i : nat) (k : kont) : M unit := fun w =>
  (tt, {| st := st w; pending := <[i := k]> (pending w);
          next_req := next_req w;
          timers := timers w; next_timer := next_timer w;
          cleanup := cleanup w; last_dep := last_dep w;
          mounted := mounted w |}, []).

Definition settle (i : nat) : M unit := fun w =>
  (tt, {| st := st w; pending := delete i (pending w);
          next_req := next_req w;
          timers := timers w; next_timer := next_timer w;
          cleanup := cleanup w; last_dep := last_dep w;
          mounted := mounted w |}, []).

Definition toast (t : Toast) : M unit := emit (OToast t).
Definition console_log (msg : string) : M unit := emit (OConsoleLog msg).
Definition console_error (msg : string) : M unit := emit (OConsoleError msg).

Definition setInterval (f : feed) (ms : Z) : M nat := fun w =>
  (next_timer w,
   {| st := st w; pending := pending w; next_req := next_req w;
      timers := <[next_timer w := f]> (timers w);
      next_timer := S (next_timer w);
      cleanup := cleanup w; last_dep := last_dep w;
          mounted := mounted w |},
   [OSetInterval (next_timer w) f ms]).

Definition clearInterval (t : nat) : M unit := fun w =>
  (tt,
   {| st := st w; pending := pending w; next_req := next_req w;
      timers := delete t (timers w);
      next_timer := next_timer w;
      cleanup := cleanup w; last_dep := last_dep w;
          mounted := mounted w |},
   [OClearInterval t]).

Definition setEffect (c : option (nat * nat)) (dep : bool) : M unit := fun w =>
  (tt,
   {| st := st w; pending := pending w; next_req := next_req w;
      timers := timers w; next_timer := next_timer w;
      cleanup := c; last_dep := dep; mounted := mounted w |}, []).

(** ** The handlers of the component *)

Definition url (path : string) : string := API_BASE +:+ path.

(** [fetchStatus], up to [await fetch]. *)
Definition fetchStatus : M unit :=
  fetch (mkReq GET (url "/api/status") false NoBody) KStatus.

(** [fetchEvents], up to [await fetch]. *)
Definition fetchEvents : M unit :=
  fetch (mkReq GET (url "/api/events") false NoBody) KEvents.

(** [checkLoginStatus], up to [await fetch]. *)
Definition checkLoginStatus : M unit :=
  fetch (mkReq GET (url "/api/status") false NoBody) KProbe.

(** [handleLogin], up to [await fetch]; [user] is read from the render
    the form was submitted in. *)
Definition handleLogin : M unit :=
  setLoading true;;
  setError "";;
  s ← getState;
  fetch (mkReq POST (url "/login") false
           (FormBody (username (user s)) (password (user s)))) KLogin.

(** [handleLogout], up to [await fetch]. *)
Definition handleLogout : M unit :=
  fetch (mkReq GET (url "/logout") false NoBody) KLogout.

(** [resetSystem], up to [await fetch]. *)
Definition resetSystem : M unit :=
  fetch (mkReq POST (url "/api/reset") true NoBody) KReset.

(** [updateTimer], up to [await fetch]. *)
Definition updateTimer : M unit :=
  s ← getState;
  fetch (mkReq POST (url "/api/update_timer") true
           (DurationBody (timerDuration s))) (KUpdate (timerDuration s)).

Definition downloadReport : M unit :=
  emit (OWindowOpen (url "/api/download_report")).

(** The [onChange] handlers of the three inputs. *)
Definition onUsernameChange (v : string) : M unit :=
  s ← getState; setUser {| username := v; password := password (user s) |}.
Definition onPasswordChange (v : string) : M unit :=
  s ← getState; setUser {| username := username (user s); password := v |}.
Definition onTimerChange (parsed : num) : M unit :=
  setTimerDuration parsed.

(** The rest of each handler: what runs when promise [i], awaited by [k],
    settles to [o].  [None]: that promise cannot settle that way (a
    [fetch] does not resolve to a body, [json()] not to a response). *)
Definition resume (i : nat) (k : kont) (o : settled) : option (M unit) :=
  match k, o with
  | KProbe, Response code =>
      Some (if response_ok code
            then setIsLoggedIn true;; fetchStatus;; fetchEvents
            else mret tt)
  | KProbe, Rejected => Some (console_log "Not logged in")

  | KLogin, Response code =>
      Some ((if response_ok code
             then setIsLoggedIn true;;
                  toast {| title := "Login Successful";
                           description := "Welcome to the Door Monitoring System";
                           destructive := false |};;
                  fetchStatus;; fetchEvents
             else setError "Invalid credentials");;
            setLoading false)
  | KLogin, Rejected =>
      Some (setError "Connection failed. Make sure the Flask server is running on port 5000.";;
            setLoading false)

  | KLogout, Response _ =>
      Some (setIsLoggedIn false;; setStatus JNull;; setEvents (JArr []))
  | KLogout, Rejected => Some (console_error "Logout error:")

  | KStatus, Response code =>
      Some (if response_ok code then await i KStatusJson else mret tt)
  | KStatus, Rejected => Some (console_error "Status fetch error:")
  | KStatusJson, Body data => Some (setStatus data)
  | KStatusJson, Rejected => Some (console_error "Status fetch error:")

  | KEvents, Response code =>
      Some (if response_ok code then await i KEventsJson else mret tt)
  | KEvents, Rejected => Some (console_error "Events fetch error:")
  | KEventsJson, Body data =>
      Some (match get_prop data "success" with
            | Some flag =>
                if truthy flag
                then match get_prop data "events" with
                     | Some evs => setEvents evs
                     | None => console_error "Events fetch error:"
                     end
                else mret tt
            | None => console_error "Events fetch error:"
            end)
  | KEventsJson, Rejected => Some (console_error "Events fetch error:")

  | KReset, Response code =>
      Some (if response_ok code
            then toast {| title := "System Reset";
                          description := "System has been reset successfully";
                          destructive := false |};;
                 fetchStatus;; fetchEvents
            else mret tt)
  | KReset, Rejected =>
      Some (toast {| title := "Reset Failed";
                     description := "Failed to reset system";
                     destructive := true |})

  | KUpdate d, Response code =>
      Some (if response_ok code
            then toast {| title := "Timer Updated";
                          description := "Timer duration set to " +:+ num_to_string d +:+ " seconds";
                          destructive := false |};;
                 fetchStatus;; fetchEvents
            else mret tt)
  | KUpdate d, Rejected =>
      Some (toast {| title := "Update Failed";
                     description := "Failed to update timer";
                     destructive := true |})

  | _, _ => None
  end.

(** ** Rendering: the polling [useEffect], keyed on [isLoggedIn] *)

Definition run_cleanup (c : option (nat * nat)) : M unit :=
  match c with
  | Some (statusInterval, eventsInterval) =>
      clearInterval statusInterval;; clearInterval eventsInterval
  | None => mret tt
  end.

Definition polling_effect (logged : bool) : M unit :=
  if logged
  then statusInterval ← setInterval StatusFeed 2000;
       eventsInterval ← setInterval EventsFeed 5000;
       setEffect (Some (statusInterval, eventsInterval)) true
  else setEffect None false.

(** The effects of a render that went through: the polling effect
    re-runs (old cleanup first) only when its dependency changed. *)
Definition run_effects : M unit :=
  w ← getWorld;
  if bool_decide (last_dep w = isLoggedIn (st w))
  then mret tt
  else run_cleanup (cleanup w);; polling_effect (isLoggedIn (st w)).

Definition nullish (v : jsval) : bool :=
  match v with
  | JUndefined | JNull => true
  | _ => false
  end.

(** Whether the events panel throws while the component function runs:
    [events.length === 0 ? ... : events.map(event => ... event.severity ...)].
    [events.length] throws on [null] and [undefined]; when the length is
    not 0, [events.map] must be callable, which among these values only an
    array's is; and the callback reads properties of each element, which
    throws on a [null] element. *)
Definition events_throw (evs : jsval) : bool :=
  match evs with
  | JUndefined | JNull => true
  | JBool _ | JNum _ => true
  | JStr s => negb (String.eqb s "")
  | JArr items => existsb nullish items
  | JObj fields =>
      match assoc "length" fields with
      | JNum (Int Z0) => false
      | _ => true
      end
  end.

(** The dashboard is what is rendered while [isLoggedIn]; the status
    cards only use [status?.field], which throws on no value.  Only what
    the component function itself evaluates is covered: what React makes
    of the children of a tab panel depends on the tabs component, which is
    not part of this file. *)
Definition dashboard_throws (s : State) : bool := events_throw (events s).

(** A render that throws has no error boundary above it ([App] has
    none): React takes the whole tree off the page, which runs the
    cleanup of the polling effect. *)
Definition unmount : M unit := fun w =>
  (tt,
   {| st := st w; pending := pending w; next_req := next_req w;
      timers := timers w; next_timer := next_timer w;
      cleanup := None; last_dep := last_dep w; mounted := false |}, []).

(** After a handler has run React renders again, if the tree is still
    there.  [st] stays as the setters last wrote it; once the tree is gone
    nothing reads it any more. *)
Definition render : M unit :=
  w ← getWorld;
  if negb (mounted w) then mret tt
  else if isLoggedIn (st w) && dashboard_throws (st w)
  then run_cleanup (cleanup w);; unmount
  else run_effects.

(** First render: both effects run. *)
Definition mount : M unit :=
  checkLoginStatus;;
  s ← getState; polling_effect (isLoggedIn s).

Definition blank : World :=
  {| st := initialState; pending := ∅; next_req := 0;
     timers := ∅; next_timer := 0; cleanup := None; last_dep := false;
     mounted := true |}.

Definition init : World := fst (exec mount blank).

(** ** The event loop *)

(** One turn of the browser's event loop: something the operator does on
    the rendered view, an interval firing, or a promise settling. *)
Inductive event :=
| ChangeUsername (v : string)
| ChangePassword (v : string)
| SubmitLogin
| ClickLogout
| ClickReset
| ChangeTimer (parsed : num)
| ClickUpdate
| ClickDownload
| Tick (t : nat)
| Settle (i : nat) (o : settled).

Definition nonempty (s : string) : bool := negb (String.eqb s "").

(** The handler an event invokes, when the view offers it: the login
    form is rendered only while [isLoggedIn] is false, its button is
    [disabled] while [loading] and both fields are [required]; the
    dashboard is rendered only while [isLoggedIn] is true; and nothing is
    rendered once the tree is unmounted.  Intervals and promises do not
    need the view. *)
Definition handler (e : event) (w : World) : option (M unit) :=
  let s := st w in
  match e with
  | ChangeUsername v =>
      if mounted w && negb (isLoggedIn s) then Some (onUsernameChange v) else None
  | ChangePassword v =>
      if mounted w && negb (isLoggedIn s) then Some (onPasswordChange v) else None
  | SubmitLogin =>
      if mounted w && negb (isLoggedIn s) && negb (loading s)
         && nonempty (username (user s)) && nonempty (password (user s))
      then Some handleLogin else None
  | ClickLogout => if mounted w && isLoggedIn s then Some handleLogout else None
  | ClickReset => if mounted w && isLoggedIn s then Some resetSystem else None
  | ChangeTimer parsed =>
      if mounted w && isLoggedIn s then Some (onTimerChange parsed) else None
  | ClickUpdate => if mounted w && isLoggedIn s then Some updateTimer else None
  | ClickDownload => if mounted w && isLoggedIn s then Some downloadReport else None
  | Tick t =>
      match timers w !! t with
      | Some StatusFeed => Some fetchStatus
      | Some EventsFeed => Some fetchEvents
      | None => None
      end
  | Settle i o =>
      match pending w !! i with
      | Some k => m ← resume i k o; Some (settle i;; m)
      | None => None
      end
  end.

Definition step (e : event) (w : World) : option (World * list output) :=
  m ← handler e w; Some (exec (m;; render) w).

(** Running a whole schedule of events, collecting what was emitted. *)
Fixpoint run (es : list event) (w : World) : option (World * list output) :=
  match es with
  | [] => Some (w, [])
  | e :: es' =>
      match step e w with
      | Some (w1, o1) =>
          match run es' w1 with
          | Some (w2, o2) => Some (w2, (o1 ++ o2)%list)
          | None => None
          end
      | None => None
      end
  end.

(** The worlds the component can be in while its tree is on the page. *)
Inductive reachable : World -> Prop :=
| reach_init : reachable init
| reach_step w e w' o :
    reachable w -> step e w = Some (w', o) -> mounted w' = true -> reachable w'.

(** The world at the end of a schedule started from a fresh page; [None]
    when some event of the schedule is not enabled where it occurs. *)
Definition final (es : list event) : option World := fst <$> run es init.


(** The world a schedule of events leads to from a fresh page (the fresh
    page itself when some event of the schedule is not enabled). *)
Definition world_after (es : list event) : World :=
  match final es with
  | Some w => w
  | None => init
  end.

(** The tree is still mounted at the end of the schedule. *)
Definition stays_mounted (es : list event) : bool :=
  match final es with
  | Some w => mounted w
  | None => true
  end.

(** What event [e] emits when it follows the schedule [es]. *)
Definition outputs_of (e : event) (es : list event) : option (list output) :=
  w ← final es; snd <$> step e w.

(** The component state once [e] has followed the schedule [es]. *)
Definition state_of (e : event) (es : list event) : option State :=
  w ← final es; (st ∘ fst) <$> step e w.

(** ** Vocabulary of the properties *)

(** [data.success] as [fetchEvents] tests it; a body without properties
    ([null]) makes the access throw, which the [catch] swallows. *)
Definition success_flag (data : jsval) : bool :=
  match get_prop data "success" with
  | Some flag => truthy flag
  | None => false
  end.

(** The ways a pull fails: the [fetch] rejects, the response is not 2xx,
    the body cannot be read, or (events only) the body's flag is falsy. *)
Definition pull_failed (k : kont) (o : settled) : bool :=
  match k, o with
  | KStatus, Rejected | KStatusJson, Rejected
  | KEvents, Rejected | KEventsJson, Rejected => true
  | KStatus, Response code | KEvents, Response code => negb (response_ok code)
  | KEventsJson, Body data => negb (success_flag data)
  | _, _ => false
  end.

(** A recurring schedule for feed [f] exists. *)
Definition scheduled (w : World) (f : feed) : Prop :=
  exists t, timers w !! t = Some f.

(** The events wired to the [onChange] of the two login inputs. *)
Definition writes_user (e : event) : bool :=
  match e with
  | ChangeUsername _ | ChangePassword _ => true
  | _ => false
  end.

(** The continuations of the two pulls. *)
Definition is_pull (k : kont) : bool :=
  match k with
  | KStatus | KStatusJson | KEvents | KEventsJson => true
  | _ => false
  end.


(** The commands' continuations. *)
Definition is_command (k : kont) : bool :=
  match k with
  | KReset | KUpdate _ => true
  | _ => false
  end.

(** ** Invariants of the event loop *)

Definition effects_ok (w : World) : Prop :=
  last_dep w = isLoggedIn (st w) /\
  if isLoggedIn (st w)
  then exists a b, a <> b /\ cleanup w = Some (a, b) /\
         timers w = <[b := EventsFeed]> {[a := StatusFeed]}
  else cleanup w = None /\ timers w = ∅.

Definition hooks_ok (w : World) : Prop :=
  effects_ok w /\
  mounted w = true /\
  (isLoggedIn (st w) = true -> dashboard_throws (st w) = false).

Definition fresh_ids (w : World) : Prop :=
  forall i, next_req w <= i -> pending w !! i = None.

Definition login_in_flight (w : World) : Prop :=
  exists i, pending w !! i = Some KLogin.

(** While a login request is in flight the form shows it and shows no
    error, and there is no second one. *)
Definition login_exclusive (w : World) : Prop :=
  (forall i, pending w !! i = Some KLogin ->
     loading (st w) = true /\ error (st w) = "") /\
  (forall i j, pending w !! i = Some KLogin -> pending w !! j = Some KLogin -> i = j).

(** The requests of the two pulls. *)
Definition status_request : request :=
  {| req_method := GET; req_url := url "/api/status";
     req_json_header := false; req_body_of := NoBody |}.
Definition events_request : request :=
  {| req_method := GET; req_url := url "/api/events";
     req_json_header := false; req_body_of := NoBody |}.

Definition stop_outputs (a b : nat) : list output :=
  [OClearInterval a; OClearInterval b].

Definition is_interval_op (o : output) : bool :=
  match o with
  | OSetInterval _ _ _ | OClearInterval _ => true
  | _ => false
  end.

(** ** Scenarios: schedules of events used as concrete inputs *)

(** A status snapshot as the server sends it. *)
Definition snapshot : jsval :=
  JObj [("success", JBool true); ("door_open", JBool false);
        ("timer_active", JBool false); ("alarm_triggered", JBool false);
        ("remaining_time", JNum (Int 0)); ("timer_duration", JNum (Int 30));
        ("gpio_available", JBool true); ("timestamp", JStr "2024-01-01 12:00:00")].

(** Both pulls have been answered with a 2xx and await their bodies. *)
Definition both_bodies_awaited : list event :=
  [Settle 0 (Response 200); Settle 1 (Response 200); Settle 2 (Response 200)].

(** The operator logs in as admin; the server accepts. *)
Definition logged_in_as_admin : list event :=
  [Settle 0 Rejected;
   ChangeUsername "admin"; ChangePassword "admin123"; SubmitLogin;
   Settle 1 (Response 200)].

(** Logged in as admin, a snapshot held, the logout request in flight. *)
Definition logout_in_flight : list event :=
  logged_in_as_admin ++
  [Settle 2 (Response 200); Settle 2 (Body snapshot); ClickLogout].

(** A status pull goes out, then the operator logs out and the logout
    completes before the pull is answered. *)
Definition pull_then_logout : list event :=
  [Settle 0 (Response 200); ClickLogout; Settle 3 (Response 200)].

(** Logged in through the probe, the operator types 0 (then 86401) into
    the timer field. *)
Definition timer_set_to (parsed : num) : list event :=
  [Settle 0 (Response 200); ChangeTimer parsed].

(** The operator clicks Reset (then Update); the request is in flight. *)
Definition command_in_flight (e : event) : list event :=
  [Settle 0 (Response 200); e].

(** The credentials are typed and the form is submitted; the login
    request is in flight. *)
Definition login_submitted : list event :=
  [Settle 0 Rejected; ChangeUsername "admin"; ChangePassword "wrong"; SubmitLogin].

(** A reset goes out, then the operator logs out and the logout
    completes before the reset is answered. *)
Definition reset_then_logout : list event :=
  [Settle 0 (Response 200); ClickReset; ClickLogout; Settle 4 (Response 200)].

(** The probe succeeds, the status interval fires once more, and both
    status pulls are answered with a 2xx: two status bodies are awaited. *)
Definition two_status_bodies_awaited : list event :=
  [Settle 0 (Response 200); Tick 0; Settle 1 (Response 200); Settle 3 (Response 200)].

(** Logged in through the probe; the logout request is in flight. *)
Definition probe_then_logout_click : list event :=
  [Settle 0 (Response 200); ClickLogout].

(** After a logout a late events body with a truthy [success] and no
    [events] field leaves [undefined] in the list; then the operator logs
    in again and the login request is in flight. *)
Definition unrenderable_list_then_login : list event :=
  [Settle 0 (Response 200); ClickLogout; Settle 3 (Response 200);
   Settle 2 (Response 200); Settle 2 (Body (JObj [("success", JBool true)]));
   ChangeUsername "admin"; ChangePassword "admin123"; SubmitLogin].


(** * Properties *)

(** ** Basic facts about the monad and about rendering *)

Lemma exec_bind (m1 m2 : M unit) (w : World) :
  exec (m1;; m2) w =
  (fst (exec m2 (fst (exec m1 w))),
   (snd (exec m1 w) ++ snd (exec m2 (fst (exec m1 w))))%list).
Proof.
  unfold exec, mbind, M_bind.
  destruct (m1 w) as [[[] w1] o1]; simpl.
  destruct (m2 w1) as [[[] w2] o2]; reflexivity.
Qed.

Ltac unfold_M :=
  unfold exec, handleLogin, handleLogout, resetSystem, updateTimer, downloadReport,
    onUsernameChange, onPasswordChange, onTimerChange,
    fetchStatus, fetchEvents, checkLoginStatus, polling_effect, run_cleanup,
    setIsLoggedIn, setUser, setStatus, setEvents, setTimerDuration, setLoading,
    setError, modState, fetch, await, settle, toast, console_log, console_error,
    setInterval, clearInterval, setEffect, unmount, emit, getState, getWorld,
    mbind, M_bind, mret, M_ret in *.

(** The three ways a render can go. *)
Lemma render_dead (w : World) :
  mounted w = false -> exec render w = (w, []).
Proof.
  intros H. unfold render, exec, mbind, M_bind, getWorld. rewrite H. reflexivity.
Qed.

Lemma render_alive (w : World) :
  mounted w = true ->
  isLoggedIn (st w) && dashboard_throws (st w) = false ->
  exec render w = exec run_effects w.
Proof.
  intros Hm Hc. unfold render at 1. unfold exec, mbind, M_bind, getWorld.
  rewrite Hm, Hc. simpl. destruct (run_effects w) as [[[] w'] o]. reflexivity.
Qed.

Lemma render_crash (w : World) :
  mounted w = true ->
  isLoggedIn (st w) && dashboard_throws (st w) = true ->
  exec render w = exec (run_cleanup (cleanup w);; unmount) w.
Proof.
  intros Hm Hc. unfold render at 1. unfold exec, mbind, M_bind, getWorld.
  rewrite Hm, Hc. simpl.
  destruct (run_cleanup (cleanup w) w) as [[[] w1] o1].
  destruct (unmount w1) as [[[] w2] o2]. reflexivity.
Qed.

Lemma render_cases (w : World) :
  exec render w = (w, []) \/
  exec render w = exec (run_cleanup (cleanup w);; unmount) w \/
  exec render w = exec run_effects w.
Proof.
  destruct (mounted w) eqn:Hm; [|left; apply render_dead, Hm].
  destruct (isLoggedIn (st w) && dashboard_throws (st w)) eqn:Hc;
    right; [left; apply render_crash | right; apply render_alive]; assumption.
Qed.

Lemma run_effects_frame (w : World) :
  st (fst (exec run_effects w)) = st w /\
  pending (fst (exec run_effects w)) = pending w /\
  next_req (fst (exec run_effects w)) = next_req w /\
  mounted (fst (exec run_effects w)) = mounted w.
Proof.
  unfold run_effects; unfold_M; simpl.
  case_bool_decide; [repeat split|].
  destruct (cleanup w) as [[a b]|], (isLoggedIn (st w)); repeat split.
Qed.

Lemma unmount_frame (w : World) :
  st (fst (exec (run_cleanup (cleanup w);; unmount) w)) = st w /\
  pending (fst (exec (run_cleanup (cleanup w);; unmount) w)) = pending w /\
  next_req (fst (exec (run_cleanup (cleanup w);; unmount) w)) = next_req w /\
  mounted (fst (exec (run_cleanup (cleanup w);; unmount) w)) = false.
Proof.
  unfold_M; simpl. destruct (cleanup w) as [[a b]|]; repeat split.
Qed.

Lemma render_st (w : World) : st (fst (exec render w)) = st w.
Proof.
  destruct (render_cases w) as [-> | [-> | ->]];
    [reflexivity | apply unmount_frame | apply run_effects_frame].
Qed.

Lemma render_pending (w : World) :
  pending (fst (exec render w)) = pending w /\
  next_req (fst (exec render w)) = next_req w.
Proof.
  destruct (render_cases w) as [-> | [-> | ->]];
    [split; reflexivity | split; apply unmount_frame | split; apply run_effects_frame].
Qed.

(** A render leaves the tree mounted only if it was and nothing threw. *)
Lemma render_mounted (w : World) :
  mounted (fst (exec render w)) = true ->
  mounted w = true /\
  isLoggedIn (st w) && dashboard_throws (st w) = false /\
  exec render w = exec run_effects w.
Proof.
  intros H. destruct (mounted w) eqn:Hm;
    [|rewrite (render_dead w Hm) in H; simpl in H; congruence].
  destruct (isLoggedIn (st w) && dashboard_throws (st w)) eqn:Hc.
  - rewrite (render_crash w Hm Hc) in H.
    destruct (unmount_frame w) as (_ & _ & _ & Hu). congruence.
  - repeat split. apply render_alive; assumption.
Qed.

(** A step is its handler followed by a render; the render leaves the
    [useState] cells and the promises alone. *)
Lemma step_handler (e : event) (w : World) (m : M unit) :
  handler e w = Some m ->
  step e w = Some (fst (exec (m;; render) w), snd (exec (m;; render) w)).
Proof.
  intros H. unfold step. rewrite H. simpl.
  destruct (exec (m;; render) w); reflexivity.
Qed.

Lemma step_inv (e : event) (w w' : World) (o : list output) :
  step e w = Some (w', o) ->
  exists m, handler e w = Some m /\ exec (m;; render) w = (w', o).
Proof.
  unfold step. destruct (handler e w) as [m|]; simpl; [|discriminate].
  intros [= H]. exists m. split; [reflexivity | exact H].
Qed.

Lemma handler_settle (w : World) (i : nat) (k : kont) (o : settled) (m : M unit) :
  pending w !! i = Some k -> resume i k o = Some m ->
  handler (Settle i o) w = Some (settle i;; m).
Proof. intros Hk Hm. simpl. rewrite Hk. simpl. rewrite Hm. reflexivity. Qed.

Ltac settle_with Hk :=
  eexists _, _; split;
  [ apply step_handler; eapply handler_settle; [exact Hk | reflexivity] | ];
  rewrite exec_bind; cbn [fst snd]; rewrite ?render_st.

Lemma clear_both (a b : nat) :
  a <> b ->
  delete b (delete a (<[b := EventsFeed]> ({[a := StatusFeed]} : gmap nat feed))) = ∅.
Proof.
  intros Hab. apply map_eq. intros t.
  rewrite lookup_empty.
  destruct (decide (t = b)) as [->|Hb]; [apply lookup_delete_eq|].
  rewrite lookup_delete_ne by congruence.
  destruct (decide (t = a)) as [->|Ha]; [apply lookup_delete_eq|].
  rewrite lookup_delete_ne by congruence.
  rewrite lookup_insert_ne by congruence.
  apply lookup_singleton_ne. congruence.
Qed.

Lemma render_hooks (w : World) :
  (last_dep w = true ->
     exists a b, a <> b /\ cleanup w = Some (a, b) /\
       timers w = <[b := EventsFeed]> {[a := StatusFeed]}) ->
  (last_dep w = false -> cleanup w = None /\ timers w = ∅) ->
  effects_ok (fst (exec run_effects w)).
Proof.
  intros Ht Hf. unfold effects_ok, run_effects. unfold_M. simpl.
  destruct w as [s pend nr tm nt cl dep mnt]; simpl in *.
  destruct dep, (isLoggedIn s) eqn:Hl; simpl.
  - rewrite Hl. split; [reflexivity|]. apply Ht. reflexivity.
  - destruct (Ht eq_refl) as (a & b & Hab & -> & ->). simpl. rewrite Hl.
    split; [reflexivity|]. split; [reflexivity|]. apply clear_both, Hab.
  - destruct (Hf eq_refl) as [-> ->]. simpl. rewrite Hl.
    split; [reflexivity|]. exists nt, (S nt).
    split; [lia|]. split; reflexivity.
  - rewrite Hl. split; [reflexivity|]. apply Hf. reflexivity.
Qed.

(** No handler touches the interval table or the effect's bookkeeping:
    only rendering does. *)
Lemma handler_frame (e : event) (w : World) (m : M unit) :
  handler e w = Some m ->
  timers (fst (exec m w)) = timers w /\
  next_timer (fst (exec m w)) = next_timer w /\
  cleanup (fst (exec m w)) = cleanup w /\
  last_dep (fst (exec m w)) = last_dep w /\
  mounted (fst (exec m w)) = mounted w.
Proof.
  destruct e as [v|v| | | |parsed| | |t|i o]; simpl;
    try (destruct (mounted w && negb (isLoggedIn (st w)));
         intros [= <-]; repeat split; fail);
    try (destruct (mounted w && isLoggedIn (st w));
         intros [= <-]; repeat split; fail).
  - destruct (mounted w && negb (isLoggedIn (st w)) && negb (loading (st w))
              && nonempty (username (user (st w)))
              && nonempty (password (user (st w))));
      intros [= <-]; repeat split.
  - destruct (timers w !! t) as [[]|]; intros [= <-]; repeat split.
  - destruct (pending w !! i) as [k|]; [|discriminate]. simpl.
    destruct k, o as [code|data|]; simpl; try discriminate; intros [= <-];
      try destruct (response_ok code); try (repeat split; fail).
    destruct (get_prop data "success") as [flag|]; [|repeat split].
    destruct (truthy flag); [|repeat split].
    destruct (get_prop data "events"); repeat split.
Qed.

Lemma hooks_mounted (w : World) : hooks_ok w -> mounted w = true.
Proof. intros (_ & H & _). exact H. Qed.

Lemma hooks_ok_step (e : event) (w w' : World) (o : list output) :
  hooks_ok w -> step e w = Some (w', o) -> mounted w' = true -> hooks_ok w'.
Proof.
  intros ([Hdep Hw] & _ & _) Hstep Hm'.
  apply step_inv in Hstep as (m & Hm & Hexec).
  rewrite exec_bind in Hexec. injection Hexec as <- _.
  destruct (render_mounted _ Hm') as (_ & Hc & Hr).
  rewrite Hr in Hm' |- *.
  destruct (handler_frame e w m Hm) as (Ht & _ & Hcl & Hd & _).
  destruct (run_effects_frame (fst (exec m w))) as (Hst & _ & _ & _).
  split; [|split; [exact Hm'|]].
  - apply render_hooks; rewrite Ht, Hcl, Hd, Hdep; intros Hl; rewrite Hl in Hw; exact Hw.
  - rewrite Hst. intros Hl. rewrite Hl in Hc. exact Hc.
Qed.

Lemma hooks_ok_init : hooks_ok init.
Proof.
  split; [split; [reflexivity|]; split; reflexivity|].
  split; [reflexivity | discriminate].
Qed.

Lemma reachable_hooks_ok (w : World) : reachable w -> hooks_ok w.
Proof.
  induction 1 as [|w e w' o _ IH Hstep Hm]; [apply hooks_ok_init|].
  eapply hooks_ok_step; eassumption.
Qed.

Lemma fresh_lt (w : World) (i : nat) (k : kont) :
  fresh_ids w -> pending w !! i = Some k -> i < next_req w.
Proof.
  intros Hf Hk. destruct (decide (i < next_req w)) as [|Hge]; [assumption|].
  rewrite Hf in Hk by lia. discriminate.
Qed.

Ltac lookup_pending :=
  repeat match goal with
  | |- context [ <[?a := _]> _ !! ?b ] =>
      first [ rewrite (lookup_insert_ne _ a b) by lia
            | rewrite (lookup_insert_ne _ a b) by congruence ]
  | |- context [ delete ?a _ !! ?b ] =>
      first [ rewrite (lookup_delete_ne _ a b) by lia
            | rewrite (lookup_delete_ne _ a b) by congruence ]
  end.

Lemma step_world (e : event) (w w' : World) (o : list output) :
  step e w = Some (w', o) ->
  exists m, handler e w = Some m /\
    st w' = st (fst (exec m w)) /\
    pending w' = pending (fst (exec m w)) /\
    next_req w' = next_req (fst (exec m w)).
Proof.
  intros Hstep. apply step_inv in Hstep as (m & Hm & Hexec).
  exists m. split; [exact Hm|].
  rewrite exec_bind in Hexec. injection Hexec as <- _.
  rewrite render_st. destruct (render_pending (fst (exec m w))) as [-> ->].
  repeat split.
Qed.

(** Case analysis on which handler an enabled event runs, and on the
    branches that handler takes. *)
Ltac handler_cases e Hm :=
  destruct e as [?v|?v| | | |?parsed| | |?t|?i ?o]; simpl in Hm;
  repeat match type of Hm with
  | (if ?b then _ else _) = Some _ => destruct b eqn:?
  | match ?x with _ => _ end = Some _ => destruct x eqn:?; simpl in Hm
  | (resume _ ?k ?o ≫= _) = Some _ => destruct k, o as [?code|?data|]; simpl in Hm
  end;
  try discriminate Hm;
  revert Hm; intros [= <-];
  try match goal with
  | |- context [response_ok ?c] => destruct (response_ok c) eqn:?
  | |- context [get_prop ?d "success"] =>
      destruct (get_prop d "success") as [?flag|] eqn:?;
      [match goal with |- context [truthy ?f] => destruct (truthy f) eqn:? end;
       [destruct (get_prop d "events") as [?evs|] eqn:?|]|]
  end.

Lemma fresh_ids_step (e : event) (w w' : World) (o : list output) :
  fresh_ids w -> step e w = Some (w', o) -> fresh_ids w'.
Proof.
  intros Hf Hstep.
  apply step_world in Hstep as (m & Hm & _ & Hp & Hn).
  unfold fresh_ids. rewrite Hp, Hn. clear Hp Hn w' o.
  handler_cases e Hm; unfold_M; simpl; intros j Hj;
    try match goal with
    | H : pending w !! _ = Some _ |- _ => pose proof (fresh_lt _ _ _ Hf H)
    end;
    lookup_pending; apply Hf; lia.
Qed.

Lemma login_flag_step (e : event) (w w' : World) (o : list output) :
  fresh_ids w ->
  (loading (st w) = true -> login_in_flight w) ->
  step e w = Some (w', o) ->
  loading (st w') = true -> login_in_flight w'.
Proof.
  intros Hf Hinv Hstep.
  apply step_world in Hstep as (m & Hm & Hs & Hp & _).
  unfold login_in_flight in *. rewrite Hs, Hp. clear Hs Hp w' o.
  handler_cases e Hm; unfold_M; simpl; intros Hl;
    try discriminate Hl;
    first
      [ eexists; apply lookup_insert_eq
      | destruct (Hinv Hl) as [j Hj];
        pose proof (fresh_lt _ _ _ Hf Hj);
        exists j; lookup_pending; exact Hj ].
Qed.

Lemma fresh_ids_init : fresh_ids init.
Proof.
  intros i Hi. simpl in *.
  rewrite lookup_insert_ne by lia. apply lookup_empty.
Qed.

Lemma reachable_pending_ok (w : World) :
  reachable w -> fresh_ids w /\ (loading (st w) = true -> login_in_flight w).
Proof.
  induction 1 as [|w e w' o _ [IHf IHl] Hstep].
  - split; [apply fresh_ids_init|]. simpl. discriminate.
  - split; [eapply fresh_ids_step | eapply login_flag_step]; eassumption.
Qed.

(** Once unmounted the tree never comes back. *)
Lemma step_dead (e : event) (w w' : World) (o : list output) :
  step e w = Some (w', o) -> mounted w = false -> mounted w' = false.
Proof.
  intros Hstep Hm.
  apply step_inv in Hstep as (m & Hh & Hexec).
  rewrite exec_bind in Hexec. injection Hexec as <- _.
  destruct (handler_frame e w m Hh) as (_ & _ & _ & _ & Hm1).
  rewrite render_dead by congruence. simpl. congruence.
Qed.

Lemma run_dead (es : list event) (w w' : World) (o : list output) :
  run es w = Some (w', o) -> mounted w = false -> mounted w' = false.
Proof.
  revert w o. induction es as [|e es IH]; intros w o; simpl.
  - intros [= <- _] Hm. exact Hm.
  - destruct (step e w) as [[w1 o1]|] eqn:Hstep; [|discriminate].
    destruct (run es w1) as [[w2 o2]|] eqn:Hrun; [|discriminate].
    intros [= <- _] Hm. eapply IH; [exact Hrun|]. eapply step_dead; eassumption.
Qed.

Lemma run_reachable (es : list event) (w w' : World) (o : list output) :
  reachable w -> run es w = Some (w', o) -> mounted w' = true -> reachable w'.
Proof.
  revert w o. induction es as [|e es IH]; intros w o Hw; simpl.
  - intros [= <- _] _. exact Hw.
  - destruct (step e w) as [[w1 o1]|] eqn:Hstep; [|discriminate].
    destruct (run es w1) as [[w2 o2]|] eqn:Hrun; [|discriminate].
    intros [= <- _] Hm.
    apply (IH w1 o2); [|exact Hrun | exact Hm].
    apply (reach_step _ _ _ _ Hw Hstep).
    destruct (mounted w1) eqn:Hm1; [reflexivity|].
    rewrite (run_dead _ _ _ _ Hrun Hm1) in Hm. discriminate Hm.
Qed.

Lemma world_after_reachable (es : list event) :
  stays_mounted es = true -> reachable (world_after es).
Proof.
  unfold stays_mounted, world_after, final.
  destruct (run es init) as [[w o]|] eqn:Hrun; simpl; [|intros _; apply reach_init].
  intros Hm. apply (run_reachable es init w o reach_init Hrun Hm).
Qed.

(** When [isLoggedIn] is as the effect last saw it, the effects do nothing. *)
Lemma render_idle (w : World) :
  last_dep w = isLoggedIn (st w) -> exec run_effects w = (w, []).
Proof.
  intros H. unfold run_effects. unfold_M. simpl.
  rewrite bool_decide_eq_true_2 by exact H. reflexivity.
Qed.

(** ** Pulls: [fetchStatus] and [fetchEvents] *)

Lemma step_settle_full (w : World) (i : nat) (k : kont) (o : settled) (m : M unit) :
  pending w !! i = Some k ->
  resume i k o = Some m ->
  exists w' outs, step (Settle i o) w = Some (w', outs) /\
    st w' = st (fst (exec (settle i;; m) w)) /\
    pending w' = pending (fst (exec (settle i;; m) w)) /\
    next_req w' = next_req (fst (exec (settle i;; m) w)).
Proof.
  intros Hk Hm.
  rewrite (step_handler _ _ _ (handler_settle w i k o m Hk Hm)), exec_bind.
  eexists _, _. split; [reflexivity|]. cbn [fst snd].
  rewrite render_st. destruct (render_pending (fst (exec (settle i;; m) w))) as [-> ->].
  repeat split.
Qed.

(** The turn in which a pull fails: no cell changes and the pull's
    promise is gone. *)
Lemma failed_pull_turn (w : World) (i : nat) (k : kont) (o : settled) :
  pending w !! i = Some k ->
  pull_failed k o = true ->
  exists w' outs, step (Settle i o) w = Some (w', outs) /\
    status (st w') = status (st w) /\ events (st w') = events (st w) /\
    pending w' !! i = None /\ next_req w' = next_req w.
Proof.
  intros Hk Hf.
  destruct k, o as [code|data|]; simpl in Hf; try discriminate Hf;
    try apply negb_true_iff in Hf;
    match type of Hk with
    | _ = Some ?k0 =>
        match goal with
        | |- exists _ _, step (Settle _ ?o) _ = _ /\ _ =>
            edestruct (step_settle_full w i k0 o) as (w' & outs & Hs & Hst & Hp & Hn);
            [exact Hk | reflexivity |]
        end
    end;
    exists w', outs; (split; [exact Hs|]); rewrite Hst, Hp, Hn; clear Hs Hst Hp Hn;
    try rewrite Hf; try (unfold_M; simpl; repeat split; apply lookup_delete_eq).
  unfold success_flag in Hf.
  destruct (get_prop data "success") as [flag|]; [rewrite Hf|];
    unfold_M; simpl; repeat split; apply lookup_delete_eq.
Qed.

(** A promise that has settled is never awaited again: its id is below
    the next one to be handed out and stays out of the table. *)
Lemma gone_step (i : nat) (e : event) (w w' : World) (o : list output) :
  i < next_req w -> pending w !! i = None ->
  step e w = Some (w', o) ->
  i < next_req w' /\ pending w' !! i = None.
Proof.
  intros Hlt Hnone Hstep.
  apply step_world in Hstep as (m & Hm & _ & Hp & Hn).
  rewrite Hp, Hn. clear Hp Hn w' o.
  handler_cases e Hm; unfold_M; simpl; (split; [lia|]);
    lookup_pending; exact Hnone.
Qed.

Lemma gone_run (i : nat) (es : list event) (w w' : World) (o : list output) :
  i < next_req w -> pending w !! i = None ->
  run es w = Some (w', o) ->
  pending w' !! i = None.
Proof.
  revert w o. induction es as [|e es IH]; intros w o Hlt Hnone; simpl.
  - intros [= <- _]. exact Hnone.
  - destruct (step e w) as [[w1 o1]|] eqn:Hstep; [|discriminate].
    destruct (run es w1) as [[w2 o2]|] eqn:Hrun; [|discriminate].
    intros [= <- _].
    destruct (gone_step i e w w1 o1 Hlt Hnone Hstep) as [Hlt1 Hnone1].
    exact (IH w1 o2 Hlt1 Hnone1 Hrun).
Qed.

(** The only turns of a pull that write a cell: a status body arriving,
    or an events body with a truthy [success]. *)
Lemma pull_writes_only_on_success (w w' : World) (i : nat) (k : kont) (o : settled)
    (outs : list output) :
  pending w !! i = Some k ->
  is_pull k = true ->
  step (Settle i o) w = Some (w', outs) ->
  status (st w') <> status (st w) \/ events (st w') <> events (st w) ->
  pull_failed k o = false /\
  exists data, o = Body data /\
    ((k = KStatusJson /\ status (st w') = data) \/
     (k = KEventsJson /\ success_flag data = true)).
Proof.
  intros Hk Hpull Hstep Hne.
  apply step_world in Hstep as (m & Hm & Hst & _).
  rewrite Hst in Hne |- *. clear Hst.
  simpl in Hm. rewrite Hk in Hm.
  destruct k; try discriminate Hpull; destruct o as [code|data|];
    simpl in Hm; try discriminate Hm; revert Hm; intros [= <-];
    try (exfalso; destruct (response_ok code);
         destruct Hne as [Hne|Hne]; apply Hne; reflexivity);
    try (exfalso; destruct Hne as [Hne|Hne]; apply Hne; reflexivity).
  - split; [reflexivity|]. exists data. split; [reflexivity|]. left. split; reflexivity.
  - destruct (get_prop data "success") as [flag|] eqn:Hs;
      [|exfalso; destruct Hne as [Hne|Hne]; apply Hne; reflexivity].
    destruct (truthy flag) eqn:Ht;
      [|exfalso; destruct Hne as [Hne|Hne]; apply Hne; reflexivity].
    assert (Hflag : success_flag data = true)
      by (unfold success_flag; rewrite Hs; exact Ht).
    split; [simpl; rewrite Hflag; reflexivity|].
    exists data. split; [reflexivity|]. right. split; [reflexivity | exact Hflag].
Qed.

(** The turn in which the response of a pull arrives writes no cell; the
    body is then awaited exactly when the status is 2xx. *)
Lemma pull_response_turn (w w' : World) (i : nat) (k : kont) (code : Z)
    (outs : list output) :
  pending w !! i = Some k ->
  is_pull k = true ->
  step (Settle i (Response code)) w = Some (w', outs) ->
  st w' = st w /\
  if response_ok code
  then (k = KStatus /\ pending w' !! i = Some KStatusJson) \/
       (k = KEvents /\ pending w' !! i = Some KEventsJson)
  else pending w' !! i = None.
Proof.
  intros Hk Hpull Hstep.
  apply step_world in Hstep as (m & Hm & Hst & Hp & _).
  rewrite Hst, Hp. clear Hst Hp.
  simpl in Hm. rewrite Hk in Hm.
  destruct k; try discriminate Hpull; simpl in Hm; try discriminate Hm;
    revert Hm; intros [= <-]; destruct (response_ok code); unfold_M; simpl;
    (split; [destruct (st w); reflexivity|]);
    first [ apply lookup_delete_eq
          | left; split; [reflexivity | apply lookup_insert_eq]
          | right; split; [reflexivity | apply lookup_insert_eq] ].
Qed.

(** C5: a failed pull of either feed (network failure, non-2xx response,
    unreadable body, or an events body whose [success] is falsy) leaves
    the held DeviceStatus and the held event list as they were, and the
    pull is over: its promise is gone and is never awaited again, so
    nothing is committed for it later.  Only a successful pull replaces
    them: a turn of a pull that changes either cell is a status body
    arriving or an events body with a truthy [success]; and the turn in
    which a response arrives writes no cell and goes on to read the body
    only when the status is 2xx. *)
Theorem failed_pull_retains_state (w : World) (i : nat) (k : kont) (o : settled) :
  reachable w ->
  pending w !! i = Some k ->
  (pull_failed k o = true ->
   exists w' outs, step (Settle i o) w = Some (w', outs) /\
     status (st w') = status (st w) /\ events (st w') = events (st w) /\
     pending w' !! i = None /\
     forall es w'' outs', run es w' = Some (w'', outs') -> pending w'' !! i = None) /\
  (is_pull k = true ->
   forall w' outs, step (Settle i o) w = Some (w', outs) ->
     status (st w') <> status (st w) \/ events (st w') <> events (st w) ->
     pull_failed k o = false /\
     exists data, o = Body data /\
       ((k = KStatusJson /\ status (st w') = data) \/
        (k = KEventsJson /\ success_flag data = true))) /\
  (is_pull k = true ->
   forall code w' outs, step (Settle i (Response code)) w = Some (w', outs) ->
     st w' = st w /\
     if response_ok code
     then (k = KStatus /\ pending w' !! i = Some KStatusJson) \/
          (k = KEvents /\ pending w' !! i = Some KEventsJson)
     else pending w' !! i = None).
Proof.
  intros Hr Hk.
  pose proof (fresh_lt w i k (proj1 (reachable_pending_ok w Hr)) Hk) as Hlt.
  split; [|split].
  - intros Hf.
    destruct (failed_pull_turn w i k o Hk Hf) as (w' & outs & Hs & Hst & Hev & Hp & Hn).
    exists w', outs. repeat split; try assumption.
    intros es w'' outs' Hrun. apply (gone_run i es w' w'' outs'); [lia | exact Hp | exact Hrun].
  - intros Hpull w' outs. apply pull_writes_only_on_success; assumption.
  - intros Hpull code w' outs. apply pull_response_turn; assumption.
Qed.

Lemma failed_pull_retains_state_witness :
  reachable (world_after [Settle 0 (Response 200)]) /\
  pending (world_after [Settle 0 (Response 200)]) !! 2 = Some KEvents /\
  pull_failed KEvents (Response 503) = true /\
  exists w' outs,
    step (Settle 2 (Response 503)) (world_after [Settle 0 (Response 200)]) =
      Some (w', outs) /\
    status (st w') = status (st (world_after [Settle 0 (Response 200)])) /\
    events (st w') = events (st (world_after [Settle 0 (Response 200)])) /\
    pending w' !! 2 = None /\
    forall es w'' outs', run es w' = Some (w'', outs') -> pending w'' !! 2 = None.
Proof.
  assert (Hr : reachable (world_after [Settle 0 (Response 200)]))
    by (apply world_after_reachable; vm_compute; reflexivity).
  assert (Hk : pending (world_after [Settle 0 (Response 200)]) !! 2 = Some KEvents)
    by (vm_compute; reflexivity).
  split; [exact Hr|]. split; [exact Hk|]. split; [reflexivity|].
  apply (proj1 (failed_pull_retains_state (world_after [Settle 0 (Response 200)]) 2
                  KEvents (Response 503) Hr Hk)).
  reflexivity.
Defined.

(** C8: the status pull commits whatever body a 2xx response carries,
    without looking at its [success] flag, whereas the events pull
    commits [data.events] only when [data.success] is truthy.  Both pulls
    await their body; both are handed the same [data]. *)
Theorem status_commit_ignores_flag (w : World) (i j : nat) (data : jsval) :
  pending w !! i = Some KStatusJson ->
  pending w !! j = Some KEventsJson ->
  (exists w' outs, step (Settle i (Body data)) w = Some (w', outs) /\
     status (st w') = data) /\
  (exists w' outs, step (Settle j (Body data)) w = Some (w', outs) /\
     events (st w') =
       if success_flag data
       then default JUndefined (get_prop data "events")
       else events (st w)).
Proof.
  intros Hi Hj. split.
  - settle_with Hi. reflexivity.
  - settle_with Hj. unfold success_flag.
    destruct (get_prop data "success") as [flag|] eqn:Hs; [|reflexivity].
    destruct (truthy flag); [|reflexivity].
    destruct data; try discriminate Hs; reflexivity.
Qed.

Lemma status_commit_ignores_flag_witness :
  pending (world_after both_bodies_awaited) !! 1 = Some KStatusJson /\
  pending (world_after both_bodies_awaited) !! 2 = Some KEventsJson /\
  (exists w' outs,
     step (Settle 1 (Body (JObj [("success", JBool false)])))
       (world_after both_bodies_awaited) = Some (w', outs) /\
     status (st w') = JObj [("success", JBool false)]) /\
  (exists w' outs,
     step (Settle 2 (Body (JObj [("success", JBool false)])))
       (world_after both_bodies_awaited) = Some (w', outs) /\
     events (st w') = JArr []).
Proof.
  split; [vm_compute; reflexivity|]. split; [vm_compute; reflexivity|].
  apply (status_commit_ignores_flag (world_after both_bodies_awaited) 1 2
           (JObj [("success", JBool false)])); vm_compute; reflexivity.
Defined.

(** ** Session: login, logout, credentials *)

(** C9: the entered credentials are written by the two input handlers
    and by nothing else: any other event (a successful login and a logout
    among them) leaves [user], plaintext password included, as it was. *)
Theorem credentials_never_cleared (e : event) (w w' : World) (o : list output) :
  step e w = Some (w', o) ->
  writes_user e = false ->
  user (st w') = user (st w).
Proof.
  intros Hstep He.
  apply step_world in Hstep as (m & Hm & -> & _).
  handler_cases e Hm; try discriminate He; reflexivity.
Qed.

Lemma credentials_never_cleared_witness :
  step (Settle 4 (Response 200)) (world_after (logged_in_as_admin ++ [ClickLogout])) =
    Some (world_after (logged_in_as_admin ++ [ClickLogout; Settle 4 (Response 200)]),
          [OClearInterval 0; OClearInterval 1]) /\
  writes_user (Settle 4 (Response 200)) = false /\
  user (st (world_after (logged_in_as_admin ++ [ClickLogout; Settle 4 (Response 200)]))) =
    {| username := "admin"; password := "admin123" |}.
Proof.
  split; [vm_compute; reflexivity|].
  split; [reflexivity|].
  transitivity (user (st (world_after (logged_in_as_admin ++ [ClickLogout]))));
    [|vm_compute; reflexivity].
  apply (credentials_never_cleared (Settle 4 (Response 200))
           (world_after (logged_in_as_admin ++ [ClickLogout]))
           (world_after (logged_in_as_admin ++ [ClickLogout; Settle 4 (Response 200)]))
           [OClearInterval 0; OClearInterval 1]);
    vm_compute; reflexivity.
Defined.

(** C2, as stated, fails twice.  When the logout request fails at the
    network level nothing is cleared: the session stays active and the
    snapshot stays held.  When it resolves, the entered identity is still
    held. *)
Lemma logout_does_not_always_clear :
  (isLoggedIn <$> state_of (Settle 4 Rejected) logout_in_flight = Some true /\
   status <$> state_of (Settle 4 Rejected) logout_in_flight = Some snapshot) /\
  (username ∘ user) <$> state_of (Settle 4 (Response 200)) logout_in_flight = Some "admin".
Proof. repeat split; vm_compute; reflexivity. Qed.

(** C2, amended: whenever the logout request resolves, whatever its HTTP
    status, the session becomes inactive, the snapshot is dropped and the
    event list is emptied; the entered credentials stay as they were. *)
Theorem logout_resolved_clears_state (w : World) (i : nat) (code : Z) :
  pending w !! i = Some KLogout ->
  exists w' outs, step (Settle i (Response code)) w = Some (w', outs) /\
    isLoggedIn (st w') = false /\
    status (st w') = JNull /\
    events (st w') = JArr [] /\
    user (st w') = user (st w).
Proof.
  intros Hk. settle_with Hk. repeat split.
Qed.

Lemma logout_resolved_clears_state_witness :
  pending (world_after logout_in_flight) !! 4 = Some KLogout /\
  exists w' outs,
    step (Settle 4 (Response 500)) (world_after logout_in_flight) = Some (w', outs) /\
    isLoggedIn (st w') = false /\
    status (st w') = JNull /\
    events (st w') = JArr [] /\
    user (st w') = user (st (world_after logout_in_flight)).
Proof.
  split; [vm_compute; reflexivity|].
  apply (logout_resolved_clears_state (world_after logout_in_flight) 4 500).
  vm_compute; reflexivity.
Defined.

(** C3, as stated, fails: the pull issued before the logout is answered
    after it, and its body is committed although the session is inactive. *)
Lemma late_status_response_is_committed :
  (isLoggedIn ∘ st) <$> final pull_then_logout = Some false /\
  (status ∘ st) <$> final pull_then_logout = Some JNull /\
  (fun w => pending w !! 1) <$> final pull_then_logout = Some (Some KStatus) /\
  isLoggedIn <$> state_of (Settle 1 (Body snapshot))
                   (pull_then_logout ++ [Settle 1 (Response 200)]) = Some false /\
  status <$> state_of (Settle 1 (Body snapshot))
               (pull_then_logout ++ [Settle 1 (Response 200)]) = Some snapshot.
Proof. repeat split; vm_compute; reflexivity. Qed.

Lemma status_response_ok (w : World) (i : nat) (code : Z) :
  pending w !! i = Some KStatus ->
  response_ok code = true ->
  exists w' outs, step (Settle i (Response code)) w = Some (w', outs) /\
    pending w' !! i = Some KStatusJson /\ st w' = st w.
Proof.
  intros Hk Hok.
  eexists _, _. split;
    [apply step_handler; eapply handler_settle; [exact Hk | reflexivity]|].
  rewrite exec_bind; cbn [fst snd].
  rewrite render_st.
  destruct (render_pending
    (exec (settle i;; (if response_ok code then await i KStatusJson else mret tt)) w).1)
    as [-> _].
  rewrite Hok. unfold_M; simpl. split; [apply lookup_insert_eq|].
  destruct (st w); reflexivity.
Qed.

(** C3, amended: [fetchStatus] never looks at the session.  With the
    session inactive, a 2xx answer to a status pull still in flight goes
    on to read the body, and the body read is committed to [status]; the
    session stays inactive. *)
Theorem status_pull_not_gated_on_session (w : World) (i : nat) (code : Z) (data : jsval) :
  isLoggedIn (st w) = false ->
  pending w !! i = Some KStatus ->
  response_ok code = true ->
  exists w1 o1 w2 o2,
    step (Settle i (Response code)) w = Some (w1, o1) /\
    step (Settle i (Body data)) w1 = Some (w2, o2) /\
    status (st w2) = data /\ isLoggedIn (st w2) = false.
Proof.
  intros Hl Hk Hok.
  destruct (status_response_ok w i code Hk Hok) as (w1 & o1 & Hs1 & Hk1 & Hst).
  exists w1, o1. rewrite Hs1.
  assert (exists w2 o2, step (Settle i (Body data)) w1 = Some (w2, o2) /\
            status (st w2) = data /\ isLoggedIn (st w2) = isLoggedIn (st w1))
    as (w2 & o2 & Hs2 & Hd & Hl2).
  { settle_with Hk1. split; reflexivity. }
  exists w2, o2. rewrite Hst in Hl2. rewrite Hl2, Hl. repeat split; assumption.
Qed.

Lemma status_pull_not_gated_on_session_witness :
  isLoggedIn (st (world_after pull_then_logout)) = false /\
  pending (world_after pull_then_logout) !! 1 = Some KStatus /\
  response_ok 200 = true /\
  exists w1 o1 w2 o2,
    step (Settle 1 (Response 200)) (world_after pull_then_logout) = Some (w1, o1) /\
    step (Settle 1 (Body snapshot)) w1 = Some (w2, o2) /\
    status (st w2) = snapshot /\ isLoggedIn (st w2) = false.
Proof.
  split; [vm_compute; reflexivity|]. split; [vm_compute; reflexivity|].
  split; [reflexivity|].
  apply (status_pull_not_gated_on_session (world_after pull_then_logout) 1 200 snapshot);
    vm_compute; reflexivity.
Defined.

(** A turn that leaves [isLoggedIn] alone emits what its handler emits and
    ends in the world its handler leaves. *)
Lemma step_quiet (e : event) (w : World) (m : M unit) :
  handler e w = Some m ->
  hooks_ok w ->
  isLoggedIn (st (fst (exec m w))) = isLoggedIn (st w) ->
  events (st (fst (exec m w))) = events (st w) ->
  step e w = Some (fst (exec m w), snd (exec m w)).
Proof.
  intros Hm ([Hdep _] & Hmnt & Hok) Hl He.
  rewrite (step_handler e w m Hm), exec_bind.
  destruct (handler_frame e w m Hm) as (_ & _ & _ & Hd & Hm1).
  rewrite render_alive; [| congruence |].
  - rewrite render_idle by congruence. simpl. rewrite app_nil_r. reflexivity.
  - unfold dashboard_throws in *. rewrite Hl, He.
    destruct (isLoggedIn (st w)); [apply Hok; reflexivity | reflexivity].
Qed.

Ltac quiet_settle Hk Hh o :=
  match type of Hk with
  | pending ?w !! ?i = Some ?k =>
      let Hm := fresh "Hm" in
      pose proof (handler_settle w i k o _ Hk eq_refl) as Hm;
      rewrite (step_quiet _ _ _ Hm Hh)
  end.

(** ** Commands: [resetSystem] and [updateTimer] *)

(** C1 at the failing inputs: the timer field declares [min="1"
    max="86400"], yet with 0 or 86401 typed into it a click on Update
    sends the value to [/api/update_timer]. *)
Lemma out_of_range_duration_is_sent :
  outputs_of ClickUpdate (timer_set_to (Int 0)) =
    Some [OFetch 3 {| req_method := POST;
                      req_url := "http://localhost:5000/api/update_timer";
                      req_json_header := true;
                      req_body_of := DurationBody (Int 0) |}] /\
  outputs_of ClickUpdate (timer_set_to (Int 86401)) =
    Some [OFetch 3 {| req_method := POST;
                      req_url := "http://localhost:5000/api/update_timer";
                      req_json_header := true;
                      req_body_of := DurationBody (Int 86401) |}].
Proof. split; vm_compute; reflexivity. Qed.

(** The same for every value: whatever [parseInt] made of the timer
    field is stored, and a click on Update issues exactly one POST to
    [/api/update_timer] carrying the stored value. *)
Lemma updateTimer_sends_held_duration (w : World) (parsed : num) :
  reachable w ->
  isLoggedIn (st w) = true ->
  exists w1 w2,
    step (ChangeTimer parsed) w = Some (w1, []) /\
    timerDuration (st w1) = parsed /\
    step ClickUpdate w1 =
      Some (w2, [OFetch (next_req w)
                   {| req_method := POST;
                      req_url := url "/api/update_timer";
                      req_json_header := true;
                      req_body_of := DurationBody parsed |}]).
Proof.
  intros Hr Hl.
  pose proof (reachable_hooks_ok w Hr) as Hh.
  assert (Hs1 : step (ChangeTimer parsed) w =
                Some (fst (exec (onTimerChange parsed) w), [])).
  { apply (step_quiet (ChangeTimer parsed) w (onTimerChange parsed));
      [simpl; rewrite ?(hooks_mounted _ Hh), ?Hl; reflexivity | exact Hh | reflexivity | reflexivity]. }
  eexists _, _. split; [exact Hs1|]. split; [reflexivity|].
  pose proof (hooks_ok_step _ _ _ _ Hh Hs1 (hooks_mounted _ Hh)) as Hh1.
  rewrite (step_quiet ClickUpdate _ updateTimer); [reflexivity|..].
  - simpl. rewrite (hooks_mounted _ Hh), Hl. reflexivity.
  - exact Hh1.
  - reflexivity.
  - reflexivity.
Qed.

Lemma updateTimer_sends_held_duration_witness :
  reachable (world_after [Settle 0 (Response 200)]) /\
  isLoggedIn (st (world_after [Settle 0 (Response 200)])) = true /\
  exists w1 w2,
    step (ChangeTimer (Int 0)) (world_after [Settle 0 (Response 200)]) = Some (w1, []) /\
    timerDuration (st w1) = Int 0 /\
    step ClickUpdate w1 =
      Some (w2, [OFetch 3
                   {| req_method := POST;
                      req_url := url "/api/update_timer";
                      req_json_header := true;
                      req_body_of := DurationBody (Int 0) |}]).
Proof.
  split; [apply world_after_reachable; vm_compute; reflexivity|]. split; [vm_compute; reflexivity|].
  apply (updateTimer_sends_held_duration (world_after [Settle 0 (Response 200)]) (Int 0));
    [apply world_after_reachable; vm_compute; reflexivity | vm_compute; reflexivity].
Defined.

(** A command that fails, either way, changes no [useState] cell. *)
Lemma command_failure_keeps_state (w : World) (i : nat) (k : kont) (o : settled) :
  pending w !! i = Some k ->
  is_command k = true ->
  match o with
  | Response code => response_ok code = false
  | Rejected => True
  | Body _ => False
  end ->
  exists w' outs, step (Settle i o) w = Some (w', outs) /\ st w' = st w.
Proof.
  intros Hk Hc Ho.
  destruct k; try discriminate Hc; destruct o as [code|data|]; try contradiction;
    settle_with Hk; try rewrite Ho; reflexivity.
Qed.

(** A command whose [fetch] rejects raises the destructive toast. *)
Lemma command_network_failure_notifies (w : World) (i : nat) (k : kont) :
  reachable w ->
  pending w !! i = Some k ->
  is_command k = true ->
  exists w' t, step (Settle i Rejected) w = Some (w', [OToast t]) /\
    destructive t = true.
Proof.
  intros Hr Hk Hc. pose proof (reachable_hooks_ok w Hr) as Hh.
  destruct k; try discriminate Hc; eexists _, _;
    (split; [quiet_settle Hk Hh Rejected; reflexivity | reflexivity]).
Qed.

(** A command answered with a non-2xx status emits nothing at all. *)
Lemma command_non_2xx_is_silent (w : World) (i : nat) (k : kont) (code : Z) :
  reachable w ->
  pending w !! i = Some k ->
  is_command k = true ->
  response_ok code = false ->
  exists w', step (Settle i (Response code)) w = Some (w', []) /\ st w' = st w.
Proof.
  intros Hr Hk Hc Hok. pose proof (reachable_hooks_ok w Hr) as Hh.
  destruct k; try discriminate Hc; eexists;
    (split; [quiet_settle Hk Hh (Response code)|]);
    rewrite ?Hok; reflexivity.
Qed.

(** C4 at the failing input: a reset or a timer update answered with
    HTTP 500 emits no notification, whereas the same command failing at
    the network level raises the failure toast. *)
Theorem command_non_2xx_emits_no_notification :
  outputs_of (Settle 3 (Response 500)) (command_in_flight ClickReset) = Some [] /\
  outputs_of (Settle 3 (Response 500)) (command_in_flight ClickUpdate) = Some [] /\
  outputs_of (Settle 3 Rejected) (command_in_flight ClickReset) =
    Some [OToast {| title := "Reset Failed";
                    description := "Failed to reset system";
                    destructive := true |}] /\
  outputs_of (Settle 3 Rejected) (command_in_flight ClickUpdate) =
    Some [OToast {| title := "Update Failed";
                    description := "Failed to update timer";
                    destructive := true |}].
Proof. repeat split; vm_compute; reflexivity. Qed.

(** ** Login *)

(** C10: [loading] is true only while a login request is in flight.
    It is never true without one; [handleLogin] raises it on entry, with
    its request then in flight; and however that request settles (any
    HTTP status, or a network failure) the flag is lowered again. *)
Theorem loading_only_while_login_in_flight (w : World) :
  reachable w ->
  (loading (st w) = true -> login_in_flight w) /\
  (loading (st (fst (exec handleLogin w))) = true /\
   pending (fst (exec handleLogin w)) !! next_req w = Some KLogin) /\
  (forall i, pending w !! i = Some KLogin ->
     (forall code, exists w' outs,
        step (Settle i (Response code)) w = Some (w', outs) /\ loading (st w') = false) /\
     (exists w' outs,
        step (Settle i Rejected) w = Some (w', outs) /\ loading (st w') = false)).
Proof.
  intros Hr. split; [apply reachable_pending_ok, Hr|]. split.
  - split; [reflexivity|]. unfold_M; simpl. apply lookup_insert_eq.
  - intros i Hk. split; [intros code|].
    + settle_with Hk. destruct (response_ok code); reflexivity.
    + settle_with Hk. reflexivity.
Qed.

Lemma loading_only_while_login_in_flight_witness :
  reachable (world_after login_submitted) /\
  loading (st (world_after login_submitted)) = true /\
  pending (world_after login_submitted) !! 1 = Some KLogin /\
  (exists w' outs,
     step (Settle 1 (Response 401)) (world_after login_submitted) = Some (w', outs) /\
     loading (st w') = false) /\
  (exists w' outs,
     step (Settle 1 Rejected) (world_after login_submitted) = Some (w', outs) /\
     loading (st w') = false).
Proof.
  pose proof (loading_only_while_login_in_flight (world_after login_submitted)
                (world_after_reachable login_submitted ltac:(vm_compute; reflexivity))) as (_ & _ & H).
  assert (Hk : pending (world_after login_submitted) !! 1 = Some KLogin)
    by (vm_compute; reflexivity).
  split; [apply world_after_reachable; vm_compute; reflexivity|]. split; [vm_compute; reflexivity|].
  split; [exact Hk|].
  split; [apply (proj1 (H 1 Hk) 401%Z) | apply (proj2 (H 1 Hk))].
Defined.

(** C6: a login that fails leaves the session inactive, starts no feed
    (nothing is requested, no interval exists) and sets the inline error:
    a fixed invalid-credentials text on a non-2xx answer, a text about the
    unreachable server on a network failure. *)
Theorem login_failure_reports_cause (w : World) (i : nat) :
  reachable w ->
  isLoggedIn (st w) = false ->
  pending w !! i = Some KLogin ->
  (forall code, response_ok code = false ->
     exists w', step (Settle i (Response code)) w = Some (w', []) /\
       isLoggedIn (st w') = false /\ timers w' = ∅ /\
       error (st w') = "Invalid credentials") /\
  (exists w', step (Settle i Rejected) w = Some (w', []) /\
     isLoggedIn (st w') = false /\ timers w' = ∅ /\
     error (st w') =
       "Connection failed. Make sure the Flask server is running on port 5000.").
Proof.
  intros Hr Hl Hk. pose proof (reachable_hooks_ok w Hr) as Hh.
  assert (Ht : timers w = ∅).
  { destruct Hh as [[_ Hh] _]. rewrite Hl in Hh. apply Hh. }
  split; [intros code Hok|]; eexists;
    (split; [quiet_settle Hk Hh (Response code) || quiet_settle Hk Hh Rejected|]);
    rewrite ?Hok; try reflexivity;
    (split; [exact Hl|]; split; [exact Ht | reflexivity]).
Qed.

Lemma login_failure_reports_cause_witness :
  reachable (world_after login_submitted) /\
  isLoggedIn (st (world_after login_submitted)) = false /\
  pending (world_after login_submitted) !! 1 = Some KLogin /\
  (exists w', step (Settle 1 (Response 401)) (world_after login_submitted) = Some (w', []) /\
     isLoggedIn (st w') = false /\ timers w' = ∅ /\
     error (st w') = "Invalid credentials") /\
  (exists w', step (Settle 1 Rejected) (world_after login_submitted) = Some (w', []) /\
     isLoggedIn (st w') = false /\ timers w' = ∅ /\
     error (st w') =
       "Connection failed. Make sure the Flask server is running on port 5000.").
Proof.
  assert (Hl : isLoggedIn (st (world_after login_submitted)) = false)
    by (vm_compute; reflexivity).
  assert (Hk : pending (world_after login_submitted) !! 1 = Some KLogin)
    by (vm_compute; reflexivity).
  pose proof (login_failure_reports_cause (world_after login_submitted) 1
                (world_after_reachable login_submitted ltac:(vm_compute; reflexivity)) Hl Hk) as [H1 H2].
  split; [apply world_after_reachable; vm_compute; reflexivity|]. split; [exact Hl|]. split; [exact Hk|].
  split; [apply (H1 401%Z); reflexivity | exact H2].
Defined.

(** ** The gating of the two feeds *)

Lemma scheduled_iff_active (w : World) (f : feed) :
  hooks_ok w -> scheduled w f <-> isLoggedIn (st w) = true.
Proof.
  intros [[_ Hh] _]. unfold scheduled. destruct (isLoggedIn (st w)).
  - destruct Hh as (a & b & Hab & _ & ->). split; [reflexivity|]. intros _.
    destruct f; [exists a | exists b].
    + rewrite lookup_insert_ne by congruence. apply lookup_singleton_eq.
    + apply lookup_insert_eq.
  - destruct Hh as [_ ->]. split; [|discriminate].
    intros [t Ht]. rewrite lookup_empty in Ht. discriminate.
Qed.

(** The render that follows a turn in which [isLoggedIn] became true. *)
Lemma render_start (w : World) :
  last_dep w = false ->
  isLoggedIn (st w) = true ->
  cleanup w = None ->
  timers w = ∅ ->
  timers (fst (exec run_effects w)) =
    <[S (next_timer w) := EventsFeed]> {[next_timer w := StatusFeed]} /\
  snd (exec run_effects w) =
    [OSetInterval (next_timer w) StatusFeed 2000;
     OSetInterval (S (next_timer w)) EventsFeed 5000].
Proof.
  destruct w as [s pend nr tm nt cl dep mnt]; simpl.
  intros -> Hl -> ->. unfold run_effects. unfold_M. simpl.
  rewrite Hl. simpl. split; reflexivity.
Qed.

(** C7, as stated, fails: with the session inactive and no interval left,
    the answer to the reset still forces a status pull and an events pull. *)
Lemma forced_pull_while_inactive :
  (isLoggedIn ∘ st) <$> final reset_then_logout = Some false /\
  (map_to_list ∘ timers) <$> final reset_then_logout = Some [] /\
  isLoggedIn <$> state_of (Settle 3 (Response 200)) reset_then_logout = Some false /\
  outputs_of (Settle 3 (Response 200)) reset_then_logout =
    Some [OToast {| title := "System Reset";
                    description := "System has been reset successfully";
                    destructive := false |};
          OFetch 5 {| req_method := GET;
                      req_url := "http://localhost:5000/api/status";
                      req_json_header := false; req_body_of := NoBody |};
          OFetch 6 {| req_method := GET;
                      req_url := "http://localhost:5000/api/events";
                      req_json_header := false; req_body_of := NoBody |}].
Proof. repeat split; vm_compute; reflexivity. Qed.

(** C7, amended: between turns of the event loop, while the tree is
    mounted, each feed has an interval exactly when [isLoggedIn] is true;
    a pull started by an interval is therefore started with the session
    active, and leaves it so; and a turn that takes the session from
    inactive to active and whose render goes through finds the interval
    table empty and creates two new intervals, 2000 ms for status and
    5000 ms for events. *)
Theorem session_gates_schedules (w : World) :
  reachable w ->
  ((scheduled w StatusFeed <-> isLoggedIn (st w) = true) /\
   (scheduled w EventsFeed <-> isLoggedIn (st w) = true)) /\
  (forall t w' o, step (Tick t) w = Some (w', o) ->
     isLoggedIn (st w) = true /\ isLoggedIn (st w') = true) /\
  (forall e w' o, step e w = Some (w', o) ->
     isLoggedIn (st w) = false -> isLoggedIn (st w') = true ->
     mounted w' = true ->
     timers w = ∅ /\
     timers w' = <[S (next_timer w) := EventsFeed]> {[next_timer w := StatusFeed]} /\
     exists o1, o = (o1 ++ [OSetInterval (next_timer w) StatusFeed 2000;
                            OSetInterval (S (next_timer w)) EventsFeed 5000])%list).
Proof.
  intros Hr. pose proof (reachable_hooks_ok w Hr) as Hh.
  split; [split; apply scheduled_iff_active, Hh|]. split.
  - intros t w' o Hstep.
    assert (Hl : isLoggedIn (st w) = true).
    { apply (scheduled_iff_active w
               (default StatusFeed (timers w !! t)) Hh).
      unfold step in Hstep. simpl in Hstep.
      exists t. destruct (timers w !! t) as [f|]; [reflexivity | discriminate]. }
    split; [exact Hl|].
    apply step_world in Hstep as (m & Hm & -> & _). simpl in Hm.
    destruct (timers w !! t) as [[]|]; try discriminate Hm;
      revert Hm; intros [= <-]; exact Hl.
  - intros e w' o Hstep Hl Hl' Hmnt.
    destruct Hh as [[Hdep Hh] _]. rewrite Hl in Hh, Hdep. destruct Hh as [Hc Ht].
    apply step_inv in Hstep as (m & Hm & Hexec).
    rewrite exec_bind in Hexec. injection Hexec as <- <-.
    rewrite render_st in Hl'.
    destruct (render_mounted _ Hmnt) as (_ & _ & ->).
    destruct (handler_frame e w m Hm) as (Ht1 & Hn1 & Hc1 & Hd1 & _).
    destruct (render_start (fst (exec m w))) as [Htm Hout];
      [congruence | exact Hl' | congruence | congruence |].
    rewrite Htm, Hout, Hn1. repeat split; [exact Ht|]. eexists. reflexivity.
Qed.

Lemma session_gates_schedules_witness :
  reachable init /\
  ~ scheduled init StatusFeed /\
  ~ scheduled init EventsFeed /\
  timers (world_after [Settle 0 (Response 200)]) =
    <[1 := EventsFeed]> {[0 := StatusFeed]}.
Proof.
  destruct (session_gates_schedules init reach_init) as ((Hs & He) & _ & Hstart).
  split; [apply reach_init|].
  split; [intros H; apply Hs in H; discriminate H|].
  split; [intros H; apply He in H; discriminate H|].
  apply (Hstart (Settle 0 (Response 200))
                (world_after [Settle 0 (Response 200)])
                [OFetch 1 {| req_method := GET;
                             req_url := "http://localhost:5000/api/status";
                             req_json_header := false; req_body_of := NoBody |};
                 OFetch 2 {| req_method := GET;
                             req_url := "http://localhost:5000/api/events";
                             req_json_header := false; req_body_of := NoBody |};
                 OSetInterval 0 StatusFeed 2000; OSetInterval 1 EventsFeed 5000]);
    vm_compute; reflexivity.
Defined.

(** * Further properties of the component *)

(** ** Login requests do not overlap *)

Ltac from_pending H :=
  repeat first
    [ apply lookup_insert_Some in H as [[_ H]|[_ H]]; [discriminate H|]
    | apply lookup_delete_Some in H as [? H] ].

Ltac clash Huniq :=
  match goal with
  | Hne : ?a <> ?b,
    Hi : pending _ !! ?a = Some KLogin,
    Hj : pending _ !! ?b = Some KLogin |- _ =>
      exfalso; apply Hne; exact (Huniq _ _ Hi Hj)
  end.

Lemma submit_guard (w : World) :
  mounted w && negb (isLoggedIn (st w)) && negb (loading (st w))
    && nonempty (username (user (st w))) && nonempty (password (user (st w))) = true ->
  isLoggedIn (st w) = false /\ loading (st w) = false /\
  username (user (st w)) <> "" /\ password (user (st w)) <> "".
Proof.
  intros H. repeat (apply andb_prop in H as [H ?]).
  unfold nonempty in *.
  repeat match goal with
  | H : negb _ = true |- _ => apply negb_true_iff in H
  end.
  repeat split; try assumption; intros Heq;
    match goal with
    | H : String.eqb ?s "" = false |- _ => rewrite Heq in H; discriminate H
    end.
Qed.

Lemma login_exclusive_step (e : event) (w w' : World) (o : list output) :
  login_exclusive w -> step e w = Some (w', o) -> login_exclusive w'.
Proof.
  intros [Hflag Huniq] Hstep.
  apply step_world in Hstep as (m & Hm & Hs & Hp & _).
  unfold login_exclusive. rewrite Hs, Hp. clear Hs Hp w' o.
  handler_cases e Hm; unfold_M; simpl;
    (split; [intros j Hj | intros j1 j2 Hj1 Hj2]);
    try (from_pending Hj; first [clash Huniq | exact (Hflag _ Hj)]);
    try (from_pending Hj1; from_pending Hj2;
         first [clash Huniq | exact (Huniq _ _ Hj1 Hj2)]).
  - split; reflexivity.
  - destruct (submit_guard w Heqb) as (_ & Hload & _).
    apply lookup_insert_Some in Hj1 as [[<- _]|[_ Hj1]];
      apply lookup_insert_Some in Hj2 as [[<- _]|[_ Hj2]];
      try reflexivity;
      exfalso;
      first [destruct (Hflag _ Hj1) as [Ht _] | destruct (Hflag _ Hj2) as [Ht _]];
      rewrite Hload in Ht; discriminate Ht.
Qed.

Lemma login_exclusive_init : login_exclusive init.
Proof.
  split; [intros i Hi | intros i j Hi _]; exfalso; simpl in Hi;
    apply lookup_insert_Some in Hi as [[_ Hi]|[_ Hi]];
    solve [discriminate Hi | rewrite lookup_empty in Hi; discriminate Hi].
Qed.

Lemma reachable_login_exclusive (w : World) : reachable w -> login_exclusive w.
Proof.
  induction 1 as [|w e w' o _ IH Hstep]; [apply login_exclusive_init|].
  eapply login_exclusive_step; eassumption.
Qed.

(** X1: While a login request is in flight, [loading] is
    shown, no error is shown, the form cannot be submitted again, and no
    other login request is in flight. *)
Theorem login_requests_never_overlap (w : World) (i : nat) :
  reachable w ->
  pending w !! i = Some KLogin ->
  loading (st w) = true /\ error (st w) = "" /\
  step SubmitLogin w = None /\
  forall j, pending w !! j = Some KLogin -> j = i.
Proof.
  intros Hr Hk. destruct (reachable_login_exclusive w Hr) as [Hflag Huniq].
  destruct (Hflag i Hk) as [Hl He].
  split; [exact Hl|]. split; [exact He|]. split.
  - unfold step. simpl. rewrite Hl.
    destruct (mounted w), (isLoggedIn (st w)); reflexivity.
  - intros j Hj. apply (Huniq j i Hj Hk).
Qed.

Lemma login_requests_never_overlap_witness :
  reachable (world_after login_submitted) /\
  pending (world_after login_submitted) !! 1 = Some KLogin /\
  loading (st (world_after login_submitted)) = true /\
  error (st (world_after login_submitted)) = "" /\
  step SubmitLogin (world_after login_submitted) = None /\
  forall j, pending (world_after login_submitted) !! j = Some KLogin -> j = 1.
Proof.
  split; [apply world_after_reachable; vm_compute; reflexivity|]. split; [vm_compute; reflexivity|].
  apply (login_requests_never_overlap (world_after login_submitted) 1);
    [apply world_after_reachable; vm_compute; reflexivity | vm_compute; reflexivity].
Defined.

(** ** Starting and stopping the schedules *)

Lemma render_stop (w : World) (a b : nat) :
  last_dep w = true ->
  isLoggedIn (st w) = false ->
  cleanup w = Some (a, b) ->
  a <> b ->
  timers w = <[b := EventsFeed]> {[a := StatusFeed]} ->
  timers (fst (exec run_effects w)) = ∅ /\
  snd (exec run_effects w) = stop_outputs a b.
Proof.
  destruct w as [s pend nr tm nt cl dep mnt]; simpl.
  intros -> Hl -> Hab ->. unfold run_effects. unfold_M. simpl.
  rewrite Hl. simpl. split; [apply clear_both, Hab | reflexivity].
Qed.


(** A turn that takes the session from active to inactive. *)
Lemma step_deactivate (e : event) (w : World) (m : M unit) :
  handler e w = Some m ->
  hooks_ok w ->
  isLoggedIn (st w) = true ->
  isLoggedIn (st (fst (exec m w))) = false ->
  exists w' a b, cleanup w = Some (a, b) /\
    timers w !! a = Some StatusFeed /\ timers w !! b = Some EventsFeed /\
    step e w = Some (w', (snd (exec m w) ++ stop_outputs a b)%list) /\
    st w' = st (fst (exec m w)) /\
    pending w' = pending (fst (exec m w)) /\
    timers w' = ∅.
Proof.
  intros Hm ([Hdep Hh] & Hmnt & _) Hl Hl'. rewrite Hl in Hh, Hdep.
  destruct Hh as (a & b & Hab & Hc & Ht).
  rewrite (step_handler e w m Hm), exec_bind.
  destruct (handler_frame e w m Hm) as (Ht1 & Hn1 & Hc1 & Hd1 & Hm1).
  assert (Hr : exec render (fst (exec m w)) = exec run_effects (fst (exec m w))).
  { apply render_alive; [congruence|]. rewrite Hl'. reflexivity. }
  destruct (render_stop (fst (exec m w)) a b) as [Htm Hout];
    [congruence | exact Hl' | congruence | exact Hab | congruence |].
  destruct (run_effects_frame (fst (exec m w))) as (Hst & Hp & _).
  rewrite Hr. eexists _, a, b. split; [exact Hc|].
  split; [rewrite Ht, lookup_insert_ne by congruence; apply lookup_singleton_eq|].
  split; [rewrite Ht; apply lookup_insert_eq|].
  split; [cbn [fst snd]; rewrite Hout; reflexivity|].
  cbn [fst snd]. rewrite Hst, Hp, Htm. repeat split.
Qed.

Ltac settle_handler Hk o :=
  match type of Hk with
  | pending ?w !! ?i = Some ?k =>
      let Hm := fresh "Hm" in
      pose proof (handler_settle w i k o _ Hk eq_refl) as Hm
  end.

(** ** The probe: [checkLoginStatus] *)



(** X3: A probe that fails changes no cell and starts nothing: a non-2xx
    answer is dropped without a trace, a network failure is logged to the
    console.  In neither case is an error shown to the operator. *)
Theorem probe_failure_is_silent (w : World) (i : nat) :
  reachable w ->
  pending w !! i = Some KProbe ->
  (forall code, response_ok code = false ->
     exists w', step (Settle i (Response code)) w = Some (w', []) /\
       st w' = st w /\ timers w' = timers w) /\
  (exists w', step (Settle i Rejected) w = Some (w', [OConsoleLog "Not logged in"]) /\
     st w' = st w /\ timers w' = timers w).
Proof.
  intros Hr Hk. pose proof (reachable_hooks_ok w Hr) as Hh.
  split; [intros code Hok|]; eexists;
    (split; [quiet_settle Hk Hh (Response code) || quiet_settle Hk Hh Rejected|]);
    rewrite ?Hok; try reflexivity; split; reflexivity.
Qed.

Lemma probe_failure_is_silent_witness :
  reachable init /\
  pending init !! 0 = Some KProbe /\
  (exists w', step (Settle 0 (Response 401)) init = Some (w', []) /\
     st w' = st init /\ timers w' = timers init) /\
  (exists w', step (Settle 0 Rejected) init = Some (w', [OConsoleLog "Not logged in"]) /\
     st w' = st init /\ timers w' = timers init).
Proof.
  assert (Hk : pending init !! 0 = Some KProbe) by (vm_compute; reflexivity).
  destruct (probe_failure_is_silent init 0 reach_init Hk) as [H1 H2].
  split; [apply reach_init|]. split; [exact Hk|].
  split; [apply (H1 401%Z); reflexivity | exact H2].
Defined.

(** ** Login: the success path and the request sent *)



Lemma nonempty_true (s : string) : s <> "" -> nonempty s = true.
Proof.
  intros H. unfold nonempty. apply negb_true_iff, String.eqb_neq, H.
Qed.

(** X5: What is typed into the two fields is what the login request carries:
    with the form on screen and idle, typing a username and a password
    (neither empty) and submitting sends one POST to [/login] whose form
    data are exactly those two strings; the form then shows [loading] and
    no error. *)
Theorem login_sends_typed_credentials (w : World) (u p : string) :
  reachable w ->
  isLoggedIn (st w) = false ->
  loading (st w) = false ->
  u <> "" -> p <> "" ->
  exists w1 w2 w3,
    step (ChangeUsername u) w = Some (w1, []) /\
    step (ChangePassword p) w1 = Some (w2, []) /\
    step SubmitLogin w2 =
      Some (w3, [OFetch (next_req w)
                   {| req_method := POST; req_url := url "/login";
                      req_json_header := false; req_body_of := FormBody u p |}]) /\
    loading (st w3) = true /\ error (st w3) = "" /\
    user (st w3) = {| username := u; password := p |}.
Proof.
  intros Hr Hl Hload Hu Hp. pose proof (reachable_hooks_ok w Hr) as Hh.
  assert (Hs1 : step (ChangeUsername u) w = Some (fst (exec (onUsernameChange u) w), [])).
  { apply (step_quiet (ChangeUsername u) w (onUsernameChange u));
      [simpl; rewrite ?(hooks_mounted _ Hh), ?Hl; reflexivity | exact Hh | reflexivity | reflexivity]. }
  pose proof (hooks_ok_step _ _ _ _ Hh Hs1 (hooks_mounted _ Hh)) as Hh1.
  set (w1 := fst (exec (onUsernameChange u) w)) in *.
  assert (Hs2 : step (ChangePassword p) w1 = Some (fst (exec (onPasswordChange p) w1), [])).
  { apply (step_quiet (ChangePassword p) w1 (onPasswordChange p));
      [simpl; rewrite ?(hooks_mounted _ Hh), ?Hl; reflexivity | exact Hh1 | reflexivity | reflexivity]. }
  pose proof (hooks_ok_step _ _ _ _ Hh1 Hs2 (hooks_mounted _ Hh1)) as Hh2.
  set (w2 := fst (exec (onPasswordChange p) w1)) in *.
  exists w1, w2, (fst (exec handleLogin w2)).
  split; [exact Hs1|]. split; [exact Hs2|].
  split; [|repeat split].
  rewrite (step_quiet SubmitLogin w2 handleLogin);
    [reflexivity | | exact Hh2 | reflexivity | reflexivity].
  simpl. rewrite (hooks_mounted _ Hh), Hl, Hload, (nonempty_true u Hu), (nonempty_true p Hp).
  reflexivity.
Qed.

Lemma login_sends_typed_credentials_witness :
  reachable init /\
  isLoggedIn (st init) = false /\ loading (st init) = false /\
  "admin" <> "" /\ "admin123" <> "" /\
  exists w1 w2 w3,
    step (ChangeUsername "admin") init = Some (w1, []) /\
    step (ChangePassword "admin123") w1 = Some (w2, []) /\
    step SubmitLogin w2 =
      Some (w3, [OFetch 1
                   {| req_method := POST; req_url := url "/login";
                      req_json_header := false;
                      req_body_of := FormBody "admin" "admin123" |}]) /\
    loading (st w3) = true /\ error (st w3) = "" /\
    user (st w3) = {| username := "admin"; password := "admin123" |}.
Proof.
  split; [apply reach_init|]. split; [reflexivity|]. split; [reflexivity|].
  split; [discriminate|]. split; [discriminate|].
  apply (login_sends_typed_credentials init "admin" "admin123");
    [apply reach_init | reflexivity | reflexivity | discriminate | discriminate].
Defined.

(** ** Who may change the session *)

(** X6: The session is deactivated by nothing but a logout request that
    resolves: no failed pull, failed command or failed login demotes it. *)
Theorem only_logout_deactivates (e : event) (w w' : World) (o : list output) :
  step e w = Some (w', o) ->
  isLoggedIn (st w) = true ->
  isLoggedIn (st w') = false ->
  exists i code, e = Settle i (Response code) /\ pending w !! i = Some KLogout.
Proof.
  intros Hstep Hl Hl'.
  apply step_world in Hstep as (m & Hm & Hs & _). rewrite Hs in Hl'. clear Hs.
  revert Hl'. handler_cases e Hm; unfold_M; simpl; intros Hl';
    try congruence.
  eexists _, _. split; [reflexivity | eassumption].
Qed.

Lemma only_logout_deactivates_witness :
  step (Settle 4 (Response 200)) (world_after logout_in_flight) =
    Some (world_after (logout_in_flight ++ [Settle 4 (Response 200)]),
          [OClearInterval 0; OClearInterval 1]) /\
  isLoggedIn (st (world_after logout_in_flight)) = true /\
  isLoggedIn (st (world_after (logout_in_flight ++ [Settle 4 (Response 200)]))) = false /\
  exists i code, Settle 4 (Response 200) = Settle i (Response code) /\
    pending (world_after logout_in_flight) !! i = Some KLogout.
Proof.
  split; [vm_compute; reflexivity|]. split; [vm_compute; reflexivity|].
  split; [vm_compute; reflexivity|].
  apply (only_logout_deactivates (Settle 4 (Response 200))
           (world_after logout_in_flight)
           (world_after (logout_in_flight ++ [Settle 4 (Response 200)]))
           [OClearInterval 0; OClearInterval 1]);
    vm_compute; reflexivity.
Defined.

(** X7: The session is activated by nothing but a 2xx answer to the probe or
    to a login request. *)
Theorem only_probe_or_login_activates (e : event) (w w' : World) (o : list output) :
  step e w = Some (w', o) ->
  isLoggedIn (st w) = false ->
  isLoggedIn (st w') = true ->
  exists i code, e = Settle i (Response code) /\ response_ok code = true /\
    (pending w !! i = Some KProbe \/ pending w !! i = Some KLogin).
Proof.
  intros Hstep Hl Hl'.
  apply step_world in Hstep as (m & Hm & Hs & _). rewrite Hs in Hl'. clear Hs.
  revert Hl'. handler_cases e Hm; unfold_M; simpl; intros Hl';
    try congruence;
    (eexists _, _; split; [reflexivity|]; split; [assumption|]);
    [left | right]; assumption.
Qed.

Lemma only_probe_or_login_activates_witness :
  step (Settle 1 (Response 200)) (world_after login_submitted) =
    Some (world_after (login_submitted ++ [Settle 1 (Response 200)]),
          [OToast {| title := "Login Successful";
                     description := "Welcome to the Door Monitoring System";
                     destructive := false |};
           OFetch 2 status_request; OFetch 3 events_request;
           OSetInterval 0 StatusFeed 2000; OSetInterval 1 EventsFeed 5000]) /\
  isLoggedIn (st (world_after login_submitted)) = false /\
  isLoggedIn (st (world_after (login_submitted ++ [Settle 1 (Response 200)]))) = true /\
  exists i code, Settle 1 (Response 200) = Settle i (Response code) /\
    response_ok code = true /\
    (pending (world_after login_submitted) !! i = Some KProbe \/
     pending (world_after login_submitted) !! i = Some KLogin).
Proof.
  split; [vm_compute; reflexivity|]. split; [vm_compute; reflexivity|].
  split; [vm_compute; reflexivity|].
  apply (only_probe_or_login_activates (Settle 1 (Response 200))
           (world_after login_submitted)
           (world_after (login_submitted ++ [Settle 1 (Response 200)]))
           [OToast {| title := "Login Successful";
                      description := "Welcome to the Door Monitoring System";
                      destructive := false |};
            OFetch 2 status_request; OFetch 3 events_request;
            OSetInterval 0 StatusFeed 2000; OSetInterval 1 EventsFeed 5000]);
    vm_compute; reflexivity.
Defined.

Lemma step_settle_world (w : World) (i : nat) (k : kont) (o : settled) (m : M unit) :
  pending w !! i = Some k ->
  resume i k o = Some m ->
  exists w' outs, step (Settle i o) w = Some (w', outs) /\
    st w' = st (fst (exec (settle i;; m) w)) /\
    pending w' = pending (fst (exec (settle i;; m) w)).
Proof.
  intros Hk Hm.
  rewrite (step_handler _ _ _ (handler_settle w i k o m Hk Hm)), exec_bind.
  eexists _, _. split; [reflexivity|]. cbn [fst snd].
  rewrite render_st. destruct (render_pending (fst (exec (settle i;; m) w))) as [-> _].
  split; reflexivity.
Qed.

(** ** Overlapping pulls *)

(** X8: With two status pulls awaiting their bodies, the body that arrives
    last is the one held afterwards, whichever request was issued first. *)
Theorem last_status_body_wins (w : World) (i j : nat) (d1 d2 : jsval) :
  pending w !! i = Some KStatusJson ->
  pending w !! j = Some KStatusJson ->
  i <> j ->
  exists w1 o1 w2 o2,
    step (Settle i (Body d1)) w = Some (w1, o1) /\
    step (Settle j (Body d2)) w1 = Some (w2, o2) /\
    status (st w1) = d1 /\ status (st w2) = d2.
Proof.
  intros Hi Hj Hij.
  destruct (step_settle_world w i KStatusJson (Body d1) _ Hi eq_refl)
    as (w1 & o1 & Hs1 & Hst1 & Hp1).
  assert (Hj1 : pending w1 !! j = Some KStatusJson).
  { rewrite Hp1. unfold_M; simpl. rewrite lookup_delete_ne by exact Hij. exact Hj. }
  destruct (step_settle_world w1 j KStatusJson (Body d2) _ Hj1 eq_refl)
    as (w2 & o2 & Hs2 & Hst2 & _).
  exists w1, o1, w2, o2. rewrite Hst1, Hst2. repeat split; assumption.
Qed.

Lemma last_status_body_wins_witness :
  pending (world_after two_status_bodies_awaited) !! 3 = Some KStatusJson /\
  pending (world_after two_status_bodies_awaited) !! 1 = Some KStatusJson /\
  3 <> 1 /\
  exists w1 o1 w2 o2,
    step (Settle 3 (Body snapshot)) (world_after two_status_bodies_awaited) = Some (w1, o1) /\
    step (Settle 1 (Body (JObj [("door_open", JBool true)]))) w1 = Some (w2, o2) /\
    status (st w1) = snapshot /\
    status (st w2) = JObj [("door_open", JBool true)].
Proof.
  split; [vm_compute; reflexivity|]. split; [vm_compute; reflexivity|].
  split; [lia|].
  apply (last_status_body_wins (world_after two_status_bodies_awaited) 3 1);
    [vm_compute; reflexivity | vm_compute; reflexivity | lia].
Defined.

(** X9: An events pull is no more gated on the session than a status pull:
    with the session inactive, a 2xx answer to an events pull in flight
    still has its body read, and a body whose [success] is truthy replaces
    the held list while the session stays inactive. *)
Theorem late_events_body_is_committed (w : World) (i : nat) (code : Z) (data : jsval) :
  isLoggedIn (st w) = false ->
  pending w !! i = Some KEvents ->
  response_ok code = true ->
  success_flag data = true ->
  exists w1 o1 w2 o2,
    step (Settle i (Response code)) w = Some (w1, o1) /\
    step (Settle i (Body data)) w1 = Some (w2, o2) /\
    get_prop data "events" = Some (events (st w2)) /\
    isLoggedIn (st w2) = false.
Proof.
  intros Hl Hk Hok Hflag.
  assert (Hm : resume i KEvents (Response code) = Some (await i KEventsJson))
    by (simpl; rewrite Hok; reflexivity).
  destruct (step_settle_world w i KEvents (Response code) _ Hk Hm)
    as (w1 & o1 & Hs1 & Hst1 & Hp1).
  assert (Hk1 : pending w1 !! i = Some KEventsJson).
  { rewrite Hp1. unfold_M; simpl. apply lookup_insert_eq. }
  destruct (step_settle_world w1 i KEventsJson (Body data) _ Hk1 eq_refl)
    as (w2 & o2 & Hs2 & Hst2 & _).
  exists w1, o1, w2, o2. split; [exact Hs1|]. split; [exact Hs2|].
  rewrite Hst2. unfold success_flag in Hflag.
  destruct (get_prop data "success") as [flag|] eqn:Hs; [|discriminate Hflag].
  rewrite Hflag.
  destruct data; try discriminate Hs; unfold_M; simpl;
    (split; [reflexivity|]); rewrite Hst1; exact Hl.
Qed.

Lemma late_events_body_is_committed_witness :
  isLoggedIn (st (world_after pull_then_logout)) = false /\
  pending (world_after pull_then_logout) !! 2 = Some KEvents /\
  response_ok 200 = true /\
  success_flag (JObj [("success", JBool true); ("events", JArr [JStr "late"])]) = true /\
  exists w1 o1 w2 o2,
    step (Settle 2 (Response 200)) (world_after pull_then_logout) = Some (w1, o1) /\
    step (Settle 2 (Body (JObj [("success", JBool true); ("events", JArr [JStr "late"])])))
      w1 = Some (w2, o2) /\
    Some (JArr [JStr "late"]) = Some (events (st w2)) /\
    isLoggedIn (st w2) = false.
Proof.
  split; [vm_compute; reflexivity|]. split; [vm_compute; reflexivity|].
  split; [reflexivity|]. split; [reflexivity|].
  apply (late_events_body_is_committed (world_after pull_then_logout) 2 200
           (JObj [("success", JBool true); ("events", JArr [JStr "late"])]));
    vm_compute; reflexivity.
Defined.

(** ** Logout and the schedules *)

(** X10: Whether the feeds stop is decided by how the logout request settles.
    Once it resolves (any status) both intervals in place are cleared, the
    interval table is empty and no tick can fire; when it fails at the
    network level only a console error is emitted and both intervals stay.
    In either case the other requests in flight stay in flight. *)
Theorem logout_outcome_decides_feeds (w : World) (i : nat) :
  reachable w ->
  isLoggedIn (st w) = true ->
  pending w !! i = Some KLogout ->
  exists a b,
    timers w !! a = Some StatusFeed /\ timers w !! b = Some EventsFeed /\
    (forall code, exists w',
       step (Settle i (Response code)) w = Some (w', [OClearInterval a; OClearInterval b]) /\
       timers w' = ∅ /\ (forall t, step (Tick t) w' = None) /\
       (forall j, j <> i -> pending w' !! j = pending w !! j)) /\
    (exists w',
       step (Settle i Rejected) w = Some (w', [OConsoleError "Logout error:"]) /\
       st w' = st w /\ timers w' = timers w /\
       (forall j, j <> i -> pending w' !! j = pending w !! j)).
Proof.
  intros Hr Hl Hk. pose proof (reachable_hooks_ok w Hr) as Hh.
  settle_handler Hk (Response 0%Z).
  destruct (step_deactivate _ _ _ Hm Hh Hl eq_refl)
    as (_ & a & b & _ & Ha & Hb & _).
  exists a, b. split; [exact Ha|]. split; [exact Hb|]. split.
  - intros code. clear Hm. settle_handler Hk (Response code).
    destruct (step_deactivate _ _ _ Hm Hh Hl eq_refl)
      as (w' & a' & b' & Hc & Ha' & Hb' & Hs & _ & Hp & Ht).
    assert (a' = a /\ b' = b) as [-> ->].
    { destruct Hh as [[_ Hh] _]. rewrite Hl in Hh.
      destruct Hh as (a0 & b0 & Hab & Hc0 & Ht0).
      rewrite Ht0 in Ha, Hb, Ha', Hb'.
      apply lookup_insert_Some in Ha as [[_ Ha]|[_ Ha]]; [discriminate Ha|].
      apply lookup_singleton_Some in Ha as [<- _].
      apply lookup_insert_Some in Ha' as [[_ Ha']|[_ Ha']]; [discriminate Ha'|].
      apply lookup_singleton_Some in Ha' as [<- _].
      apply lookup_insert_Some in Hb as [[<- _]|[_ Hb]];
        [|apply lookup_singleton_Some in Hb as [_ Hb]; discriminate Hb].
      apply lookup_insert_Some in Hb' as [[<- _]|[_ Hb']];
        [|apply lookup_singleton_Some in Hb' as [_ Hb']; discriminate Hb'].
      split; reflexivity. }
    exists w'. split; [exact Hs|]. split; [exact Ht|]. split.
    + intros t. unfold step. simpl. rewrite Ht, lookup_empty. reflexivity.
    + intros j Hj. rewrite Hp. unfold_M; simpl. apply lookup_delete_ne. congruence.
  - eexists. split; [quiet_settle Hk Hh Rejected; reflexivity|].
    split; [reflexivity|]. split; [reflexivity|].
    intros j Hj. unfold_M; simpl. apply lookup_delete_ne. congruence.
Qed.

Lemma logout_outcome_decides_feeds_witness :
  reachable (world_after probe_then_logout_click) /\
  isLoggedIn (st (world_after probe_then_logout_click)) = true /\
  pending (world_after probe_then_logout_click) !! 3 = Some KLogout /\
  exists a b,
    timers (world_after probe_then_logout_click) !! a = Some StatusFeed /\
    timers (world_after probe_then_logout_click) !! b = Some EventsFeed /\
    (forall code, exists w',
       step (Settle 3 (Response code)) (world_after probe_then_logout_click) =
         Some (w', [OClearInterval a; OClearInterval b]) /\
       timers w' = ∅ /\ (forall t, step (Tick t) w' = None) /\
       (forall j, j <> 3 ->
          pending w' !! j = pending (world_after probe_then_logout_click) !! j)) /\
    (exists w',
       step (Settle 3 Rejected) (world_after probe_then_logout_click) =
         Some (w', [OConsoleError "Logout error:"]) /\
       st w' = st (world_after probe_then_logout_click) /\
       timers w' = timers (world_after probe_then_logout_click) /\
       (forall j, j <> 3 ->
          pending w' !! j = pending (world_after probe_then_logout_click) !! j)).
Proof.
  split; [apply world_after_reachable; vm_compute; reflexivity|]. split; [vm_compute; reflexivity|].
  split; [vm_compute; reflexivity|].
  apply (logout_outcome_decides_feeds (world_after probe_then_logout_click) 3);
    [apply world_after_reachable; vm_compute; reflexivity | vm_compute; reflexivity | vm_compute; reflexivity].
Defined.

Lemma handler_no_interval_op (e : event) (w : World) (m : M unit) :
  handler e w = Some m ->
  Forall (fun o => is_interval_op o = false) (snd (exec m w)).
Proof.
  intros Hm. handler_cases e Hm; unfold_M; simpl; repeat constructor.
Qed.

(** X11: While the tree stays mounted, the schedules are touched only when
    the session changes: a turn that leaves [isLoggedIn] as it was and
    whose render goes through sets and clears no interval and leaves the
    interval table as it was.  Forced pulls, failed pulls and a second
    activation therefore never restart or double the intervals. *)
Theorem schedule_untouched_while_session_unchanged
    (e : event) (w w' : World) (o : list output) :
  reachable w ->
  step e w = Some (w', o) ->
  isLoggedIn (st w') = isLoggedIn (st w) ->
  mounted w' = true ->
  timers w' = timers w /\ Forall (fun x => is_interval_op x = false) o.
Proof.
  intros Hr Hstep Hl Hmnt.
  destruct (reachable_hooks_ok w Hr) as ([Hdep _] & _ & _).
  apply step_inv in Hstep as (m & Hm & Hexec).
  rewrite exec_bind in Hexec. injection Hexec as <- <-.
  rewrite render_st in Hl.
  destruct (render_mounted _ Hmnt) as (_ & _ & ->).
  destruct (handler_frame e w m Hm) as (Ht & _ & _ & Hd & _).
  rewrite render_idle by congruence. simpl. rewrite app_nil_r.
  split; [exact Ht | apply (handler_no_interval_op e w m Hm)].
Qed.

Lemma schedule_untouched_while_session_unchanged_witness :
  reachable (world_after (command_in_flight ClickReset)) /\
  step (Settle 3 (Response 200)) (world_after (command_in_flight ClickReset)) =
    Some (world_after (command_in_flight ClickReset ++ [Settle 3 (Response 200)]),
          [OToast {| title := "System Reset";
                     description := "System has been reset successfully";
                     destructive := false |};
           OFetch 4 status_request; OFetch 5 events_request]) /\
  isLoggedIn (st (world_after (command_in_flight ClickReset ++ [Settle 3 (Response 200)]))) =
    true /\
  mounted (world_after (command_in_flight ClickReset ++ [Settle 3 (Response 200)])) = true /\
  timers (world_after (command_in_flight ClickReset ++ [Settle 3 (Response 200)])) =
    timers (world_after (command_in_flight ClickReset)) /\
  Forall (fun x => is_interval_op x = false)
    [OToast {| title := "System Reset";
               description := "System has been reset successfully";
               destructive := false |};
     OFetch 4 status_request; OFetch 5 events_request].
Proof.
  split; [apply world_after_reachable; vm_compute; reflexivity|].
  split; [vm_compute; reflexivity|].
  split; [vm_compute; reflexivity|]. split; [vm_compute; reflexivity|].
  apply (schedule_untouched_while_session_unchanged (Settle 3 (Response 200))
           (world_after (command_in_flight ClickReset)));
    [apply world_after_reachable; vm_compute; reflexivity
    | vm_compute; reflexivity | vm_compute; reflexivity | vm_compute; reflexivity].
Defined.

(** ** Who may change the held data *)

(** X12: The held snapshot is changed only by a status body arriving or by a
    logout request resolving; the held event list only by an events body
    arriving or by a logout request resolving.  No command, login, probe
    or tick writes either of them. *)
Theorem status_and_events_writers (e : event) (w w' : World) (o : list output) :
  step e w = Some (w', o) ->
  (status (st w') <> status (st w) ->
     (exists i data, e = Settle i (Body data) /\ pending w !! i = Some KStatusJson) \/
     (exists i code, e = Settle i (Response code) /\ pending w !! i = Some KLogout)) /\
  (events (st w') <> events (st w) ->
     (exists i data, e = Settle i (Body data) /\ pending w !! i = Some KEventsJson) \/
     (exists i code, e = Settle i (Response code) /\ pending w !! i = Some KLogout)).
Proof.
  intros Hstep.
  apply step_world in Hstep as (m & Hm & -> & _).
  handler_cases e Hm; unfold_M; simpl;
    (split; intros Hne; try (exfalso; apply Hne; reflexivity));
    first [ left; eexists _, _; split; [reflexivity | eassumption]
          | right; eexists _, _; split; [reflexivity | eassumption] ].
Qed.

Lemma status_and_events_writers_witness :
  step (Settle 1 (Body snapshot)) (world_after both_bodies_awaited) =
    Some (world_after (both_bodies_awaited ++ [Settle 1 (Body snapshot)]), []) /\
  status (st (world_after (both_bodies_awaited ++ [Settle 1 (Body snapshot)]))) <>
    status (st (world_after both_bodies_awaited)) /\
  ((exists i data, Settle 1 (Body snapshot) = Settle i (Body data) /\
      pending (world_after both_bodies_awaited) !! i = Some KStatusJson) \/
   (exists i code, Settle 1 (Body snapshot) = Settle i (Response code) /\
      pending (world_after both_bodies_awaited) !! i = Some KLogout)).
Proof.
  assert (Hstep : step (Settle 1 (Body snapshot)) (world_after both_bodies_awaited) =
    Some (world_after (both_bodies_awaited ++ [Settle 1 (Body snapshot)]), []))
    by (vm_compute; reflexivity).
  assert (Hne : status (st (world_after (both_bodies_awaited ++ [Settle 1 (Body snapshot)]))) <>
    status (st (world_after both_bodies_awaited)))
    by (vm_compute; discriminate).
  split; [exact Hstep|]. split; [exact Hne|].
  exact (proj1 (status_and_events_writers _ _ _ _ Hstep) Hne).
Defined.

(** X13: The timer field is written by typing into it and by nothing else: no
    status body (whatever [timer_duration] it carries) and no answer to a
    timer update brings it in line with the server. *)
Theorem timer_field_only_typed (e : event) (w w' : World) (o : list output) :
  step e w = Some (w', o) ->
  (forall parsed, e <> ChangeTimer parsed) ->
  timerDuration (st w') = timerDuration (st w).
Proof.
  intros Hstep He.
  apply step_world in Hstep as (m & Hm & -> & _).
  handler_cases e Hm; try reflexivity.
  exfalso. eapply He. reflexivity.
Qed.

Lemma timer_field_only_typed_witness :
  step (Settle 1 (Body (JObj [("timer_duration", JNum (Int 600))])))
       (world_after both_bodies_awaited) =
    Some (world_after (both_bodies_awaited ++
                       [Settle 1 (Body (JObj [("timer_duration", JNum (Int 600))]))]), []) /\
  (forall parsed,
     Settle 1 (Body (JObj [("timer_duration", JNum (Int 600))])) <> ChangeTimer parsed) /\
  timerDuration (st (world_after (both_bodies_awaited ++
                     [Settle 1 (Body (JObj [("timer_duration", JNum (Int 600))]))]))) =
    Int 30.
Proof.
  split; [vm_compute; reflexivity|]. split; [discriminate|].
  transitivity (timerDuration (st (world_after both_bodies_awaited)));
    [|vm_compute; reflexivity].
  apply (timer_field_only_typed
           (Settle 1 (Body (JObj [("timer_duration", JNum (Int 600))])))
           (world_after both_bodies_awaited)
           (world_after (both_bodies_awaited ++
                         [Settle 1 (Body (JObj [("timer_duration", JNum (Int 600))]))]))
           []);
    [vm_compute; reflexivity | discriminate].
Defined.

(** ** Commands: what a 2xx answer does *)

(** X14: A 2xx answer to a reset or a timer update raises one (non-destructive)
    toast and forces exactly one status pull and one events pull; it
    writes no cell itself, so what is displayed changes only when those
    pulls are answered.  The command's promise is settled for good. *)
Theorem command_success_forces_both_pulls (w : World) (i : nat) (k : kont) (code : Z) :
  reachable w ->
  pending w !! i = Some k ->
  is_command k = true ->
  response_ok code = true ->
  exists w' t,
    step (Settle i (Response code)) w =
      Some (w', [OToast t; OFetch (next_req w) status_request;
                 OFetch (S (next_req w)) events_request]) /\
    destructive t = false /\
    st w' = st w /\
    pending w' !! i = None /\
    pending w' !! next_req w = Some KStatus /\
    pending w' !! S (next_req w) = Some KEvents.
Proof.
  intros Hr Hk Hc Hok. pose proof (reachable_hooks_ok w Hr) as Hh.
  pose proof (fresh_lt w i k (proj1 (reachable_pending_ok w Hr)) Hk) as Hlt.
  destruct k; try discriminate Hc;
    settle_handler Hk (Response code); rewrite Hok in Hm;
    eexists _, _;
    (split; [rewrite (step_quiet _ _ _ Hm Hh eq_refl eq_refl); reflexivity|]);
    unfold_M; simpl;
    (split; [reflexivity|]); (split; [destruct (st w); reflexivity|]);
    (split; [rewrite !lookup_insert_ne by lia; apply lookup_delete_eq|]);
    (split; [rewrite lookup_insert_ne by lia; apply lookup_insert_eq
            | apply lookup_insert_eq]).
Qed.

Lemma command_success_forces_both_pulls_witness :
  reachable (world_after (command_in_flight ClickReset)) /\
  pending (world_after (command_in_flight ClickReset)) !! 3 = Some KReset /\
  is_command KReset = true /\
  response_ok 200 = true /\
  exists w' t,
    step (Settle 3 (Response 200)) (world_after (command_in_flight ClickReset)) =
      Some (w', [OToast t; OFetch 4 status_request; OFetch 5 events_request]) /\
    destructive t = false /\
    st w' = st (world_after (command_in_flight ClickReset)) /\
    pending w' !! 3 = None /\
    pending w' !! 4 = Some KStatus /\
    pending w' !! 5 = Some KEvents.
Proof.
  split; [apply world_after_reachable; vm_compute; reflexivity|]. split; [vm_compute; reflexivity|].
  split; [reflexivity|]. split; [reflexivity|].
  apply (command_success_forces_both_pulls (world_after (command_in_flight ClickReset))
           3 KReset 200);
    [apply world_after_reachable; vm_compute; reflexivity | vm_compute; reflexivity | reflexivity | reflexivity].
Defined.

(** X15: The toast of a successful timer update names the duration that was
    sent, not the one the field holds when the answer arrives: if the
    operator retypes the field while the request is in flight, the toast
    still shows the value of the click (in decimal digits, for an integer
    a JavaScript number holds exactly). *)
Theorem update_toast_names_sent_duration (w : World) (z : Z) (retyped : num) (code : Z) :
  reachable w ->
  isLoggedIn (st w) = true ->
  timerDuration (st w) = Int z ->
  (Z.abs z < 2 ^ 53)%Z ->
  response_ok code = true ->
  exists w1 w2 w3,
    step ClickUpdate w =
      Some (w1, [OFetch (next_req w)
                   {| req_method := POST; req_url := url "/api/update_timer";
                      req_json_header := true; req_body_of := DurationBody (Int z) |}]) /\
    step (ChangeTimer retyped) w1 = Some (w2, []) /\
    step (Settle (next_req w) (Response code)) w2 =
      Some (w3, [OToast {| title := "Timer Updated";
                           description := "Timer duration set to " +:+ pretty z +:+ " seconds";
                           destructive := false |};
                 OFetch (S (next_req w)) status_request;
                 OFetch (S (S (next_req w))) events_request]) /\
    timerDuration (st w3) = retyped.
Proof.
  intros Hr Hl Hz _ Hok. pose proof (reachable_hooks_ok w Hr) as Hh.
  assert (Hs1 : step ClickUpdate w = Some (fst (exec updateTimer w), snd (exec updateTimer w))).
  { apply (step_quiet ClickUpdate w updateTimer);
      [simpl; rewrite ?(hooks_mounted _ Hh), ?Hl; reflexivity | exact Hh | reflexivity | reflexivity]. }
  pose proof (hooks_ok_step _ _ _ _ Hh Hs1 (hooks_mounted _ Hh)) as Hh1.
  set (w1 := fst (exec updateTimer w)) in *.
  assert (Hs2 : step (ChangeTimer retyped) w1 = Some (fst (exec (onTimerChange retyped) w1), [])).
  { apply (step_quiet (ChangeTimer retyped) w1 (onTimerChange retyped));
      [simpl; rewrite ?(hooks_mounted _ Hh), ?Hl; reflexivity | exact Hh1 | reflexivity | reflexivity]. }
  pose proof (hooks_ok_step _ _ _ _ Hh1 Hs2 (hooks_mounted _ Hh1)) as Hh2.
  set (w2 := fst (exec (onTimerChange retyped) w1)) in *.
  assert (Hk : pending w2 !! next_req w = Some (KUpdate (Int z))).
  { subst w2 w1. unfold_M; simpl. rewrite Hz. apply lookup_insert_eq. }
  settle_handler Hk (Response code). rewrite Hok in Hm.
  exists w1, w2, (fst (exec (settle (next_req w);; 
                              toast {| title := "Timer Updated";
                                       description := "Timer duration set to " +:+ num_to_string (Int z) +:+ " seconds";
                                       destructive := false |};; fetchStatus;; fetchEvents) w2)).
  split; [rewrite Hs1; subst w1; unfold_M; simpl; rewrite Hz; reflexivity|].
  split; [exact Hs2|].
  split; [rewrite (step_quiet _ _ _ Hm Hh2 eq_refl eq_refl); reflexivity | reflexivity].
Qed.

Lemma update_toast_names_sent_duration_witness :
  reachable (world_after [Settle 0 (Response 200)]) /\
  isLoggedIn (st (world_after [Settle 0 (Response 200)])) = true /\
  timerDuration (st (world_after [Settle 0 (Response 200)])) = Int 30 /\
  (Z.abs 30 < 2 ^ 53)%Z /\
  response_ok 200 = true /\
  exists w1 w2 w3,
    step ClickUpdate (world_after [Settle 0 (Response 200)]) =
      Some (w1, [OFetch 3
                   {| req_method := POST; req_url := url "/api/update_timer";
                      req_json_header := true; req_body_of := DurationBody (Int 30) |}]) /\
    step (ChangeTimer (Int 45)) w1 = Some (w2, []) /\
    step (Settle 3 (Response 200)) w2 =
      Some (w3, [OToast {| title := "Timer Updated";
                           description := "Timer duration set to 30 seconds";
                           destructive := false |};
                 OFetch 4 status_request; OFetch 5 events_request]) /\
    timerDuration (st w3) = Int 45.
Proof.
  split; [apply world_after_reachable; vm_compute; reflexivity|]. split; [vm_compute; reflexivity|].
  split; [vm_compute; reflexivity|]. split; [reflexivity|]. split; [reflexivity|].
  apply (update_toast_names_sent_duration (world_after [Settle 0 (Response 200)])
           30 (Int 45) 200);
    [apply world_after_reachable; vm_compute; reflexivity | vm_compute; reflexivity
    | vm_compute; reflexivity | reflexivity | reflexivity].
Defined.

(** ** Pulls: the shape of an events body, and ticks *)





(** X17: A firing interval issues exactly one request of its feed and changes
    nothing else: no cell, no interval, and every request already in
    flight (an unanswered pull of the same feed included) stays in flight
    beside the new one. *)
Theorem tick_adds_one_pull (w : World) (t : nat) (f : feed) :
  reachable w ->
  timers w !! t = Some f ->
  exists w',
    step (Tick t) w =
      Some (w', [OFetch (next_req w)
                   (match f with
                    | StatusFeed => status_request
                    | EventsFeed => events_request
                    end)]) /\
    st w' = st w /\ timers w' = timers w /\
    pending w' !! next_req w =
      Some (match f with StatusFeed => KStatus | EventsFeed => KEvents end) /\
    forall j k, pending w !! j = Some k -> pending w' !! j = Some k.
Proof.
  intros Hr Ht. pose proof (reachable_hooks_ok w Hr) as Hh.
  pose proof (proj1 (reachable_pending_ok w Hr)) as Hf.
  destruct f;
    [ assert (Hm : handler (Tick t) w = Some fetchStatus) by (simpl; rewrite Ht; reflexivity)
    | assert (Hm : handler (Tick t) w = Some fetchEvents) by (simpl; rewrite Ht; reflexivity) ];
    (eexists; split; [rewrite (step_quiet _ _ _ Hm Hh eq_refl eq_refl); reflexivity|]);
    unfold_M; simpl;
    (split; [destruct (st w); reflexivity|]); (split; [reflexivity|]);
    (split; [apply lookup_insert_eq|]);
    intros j k Hj; pose proof (fresh_lt w j k Hf Hj);
    rewrite lookup_insert_ne by lia; exact Hj.
Qed.

Lemma tick_adds_one_pull_witness :
  reachable (world_after [Settle 0 (Response 200)]) /\
  timers (world_after [Settle 0 (Response 200)]) !! 0 = Some StatusFeed /\
  exists w',
    step (Tick 0) (world_after [Settle 0 (Response 200)]) =
      Some (w', [OFetch 3 status_request]) /\
    st w' = st (world_after [Settle 0 (Response 200)]) /\
    timers w' = timers (world_after [Settle 0 (Response 200)]) /\
    pending w' !! 3 = Some KStatus /\
    forall j k, pending (world_after [Settle 0 (Response 200)]) !! j = Some k ->
                pending w' !! j = Some k.
Proof.
  split; [apply world_after_reachable; vm_compute; reflexivity|]. split; [vm_compute; reflexivity|].
  apply (tick_adds_one_pull (world_after [Settle 0 (Response 200)]) 0 StatusFeed);
    [apply world_after_reachable; vm_compute; reflexivity | vm_compute; reflexivity].
Defined.

(** ** The inline error of the login form *)

(** X18: The inline error is written by submitting the form (which clears it)
    and by a login request settling, and by nothing else: typing into the
    fields does not clear it, so it stays on screen until the next
    attempt. *)
Theorem inline_error_persists (e : event) (w w' : World) (o : list output) :
  step e w = Some (w', o) ->
  e <> SubmitLogin ->
  (forall i s, e = Settle i s -> pending w !! i <> Some KLogin) ->
  error (st w') = error (st w).
Proof.
  intros Hstep Hsub Hset.
  apply step_world in Hstep as (m & Hm & -> & _).
  handler_cases e Hm; try reflexivity;
    exfalso; first [ apply Hsub; reflexivity | eapply Hset; [reflexivity | eassumption] ].
Qed.

Lemma inline_error_persists_witness :
  step (ChangePassword "admin123")
       (world_after (login_submitted ++ [Settle 1 (Response 401)])) =
    Some (world_after (login_submitted ++
                       [Settle 1 (Response 401); ChangePassword "admin123"]), []) /\
  ChangePassword "admin123" <> SubmitLogin /\
  (forall i s, ChangePassword "admin123" = Settle i s ->
     pending (world_after (login_submitted ++ [Settle 1 (Response 401)])) !! i <>
       Some KLogin) /\
  error (st (world_after (login_submitted ++
                          [Settle 1 (Response 401); ChangePassword "admin123"]))) =
    "Invalid credentials".
Proof.
  split; [vm_compute; reflexivity|]. split; [discriminate|]. split; [discriminate|].
  transitivity (error (st (world_after (login_submitted ++ [Settle 1 (Response 401)]))));
    [|vm_compute; reflexivity].
  apply (inline_error_persists (ChangePassword "admin123")
           (world_after (login_submitted ++ [Settle 1 (Response 401)]))
           (world_after (login_submitted ++
                         [Settle 1 (Response 401); ChangePassword "admin123"]))
           []);
    [vm_compute; reflexivity | discriminate | discriminate].
Defined.

(** ** A render that throws *)

(** A turn that activates the session over a list the dashboard throws
    on: the effect never runs. *)
Lemma step_crash_on_activation (e : event) (w : World) (m : M unit) :
  handler e w = Some m ->
  hooks_ok w ->
  isLoggedIn (st w) = false ->
  isLoggedIn (st (fst (exec m w))) = true ->
  events_throw (events (st (fst (exec m w)))) = true ->
  exists w', step e w = Some (w', snd (exec m w)) /\
    st w' = st (fst (exec m w)) /\
    pending w' = pending (fst (exec m w)) /\
    timers w' = ∅ /\ mounted w' = false.
Proof.
  intros Hm ([Hdep Hh] & Hmnt & _) Hl Hl' He. rewrite Hl in Hh.
  destruct Hh as [Hc Ht].
  rewrite (step_handler e w m Hm), exec_bind.
  destruct (handler_frame e w m Hm) as (Ht1 & _ & Hc1 & _ & Hm1).
  rewrite render_crash;
    [| congruence | unfold dashboard_throws; rewrite Hl', He; reflexivity].
  rewrite Hc1, Hc.
  eexists. split; [cbn [fst snd]; unfold_M; simpl; rewrite app_nil_r; reflexivity|].
  cbn [fst snd]. unfold_M; simpl. repeat split. rewrite Ht1. exact Ht.
Qed.

(** X19: A 2xx answer to the probe or to a login request, with the session
    inactive and a held list the dashboard throws on, still activates the
    session and still forces both pulls, but the first render of the
    dashboard throws: the tree is unmounted and no interval is ever
    created. *)
Theorem activation_over_unrenderable_list (w : World) (i : nat) (k : kont) (code : Z) :
  reachable w ->
  isLoggedIn (st w) = false ->
  events_throw (events (st w)) = true ->
  pending w !! i = Some k ->
  k = KProbe \/ k = KLogin ->
  response_ok code = true ->
  exists w' outs, step (Settle i (Response code)) w = Some (w', outs) /\
    Forall (fun x => is_interval_op x = false) outs /\
    isLoggedIn (st w') = true /\ mounted w' = false /\ timers w' = ∅ /\
    pending w' !! next_req w = Some KStatus /\
    pending w' !! S (next_req w) = Some KEvents.
Proof.
  intros Hr Hl Hev Hk Hkind Hok. pose proof (reachable_hooks_ok w Hr) as Hh.
  destruct Hkind as [-> | ->];
    settle_handler Hk (Response code); rewrite Hok in Hm;
    destruct (step_crash_on_activation _ _ _ Hm Hh Hl eq_refl Hev)
      as (w' & Hs & Hst & Hp & Ht & Hu);
    eexists w', _; (split; [exact Hs|]); rewrite Hst, Hp;
    (split; [unfold_M; simpl; repeat constructor|]);
    (split; [reflexivity|]); (split; [exact Hu|]); (split; [exact Ht|]);
    unfold_M; simpl;
    (split; [rewrite lookup_insert_ne by lia; apply lookup_insert_eq
            | apply lookup_insert_eq]).
Qed.

Lemma activation_over_unrenderable_list_witness :
  reachable (world_after unrenderable_list_then_login) /\
  isLoggedIn (st (world_after unrenderable_list_then_login)) = false /\
  events_throw (events (st (world_after unrenderable_list_then_login))) = true /\
  pending (world_after unrenderable_list_then_login) !! 4 = Some KLogin /\
  (KLogin = KProbe \/ KLogin = KLogin) /\
  response_ok 200 = true /\
  exists w' outs,
    step (Settle 4 (Response 200)) (world_after unrenderable_list_then_login) =
      Some (w', outs) /\
    Forall (fun x => is_interval_op x = false) outs /\
    isLoggedIn (st w') = true /\ mounted w' = false /\ timers w' = ∅ /\
    pending w' !! 5 = Some KStatus /\
    pending w' !! 6 = Some KEvents.
Proof.
  split; [apply world_after_reachable; vm_compute; reflexivity|].
  split; [vm_compute; reflexivity|]. split; [vm_compute; reflexivity|].
  split; [vm_compute; reflexivity|]. split; [right; reflexivity|].
  split; [reflexivity|].
  apply (activation_over_unrenderable_list
           (world_after unrenderable_list_then_login) 4 KLogin 200);
    [apply world_after_reachable; vm_compute; reflexivity
    | vm_compute; reflexivity | vm_compute; reflexivity | vm_compute; reflexivity
    | right; reflexivity | reflexivity].
Defined.


